(** * Ingestion pipeline of lab04-serverless-localstack

    A shallow embedding of the two Lambda handlers of the repository,
    [src/handlers/dataProcessor.js] (CSV batch path) and
    [src/handlers/createRecord.js] (API path), together with the helper
    modules they call ([utils/s3.js], [utils/dynamodb.js], [utils/sns.js])
    and the fragment of the JavaScript runtime they rely on (string
    trimming and splitting, truthiness, [parseFloat], [parseInt],
    property reads). *)

From Stdlib Require Import ZArith NArith String Ascii List Lia.
From Stdlib Require Import Decimal DecimalN.
From stdpp Require Import base option list gmap.

Set Warnings "-register-all".

#[local] Open Scope N_scope.

(** ** The JavaScript runtime fragment *)

Module JS.

(** A JavaScript string is a sequence of UTF-16 code units. *)
Definition jsstring : Type := list N.

(** An ASCII literal as a JavaScript string. *)
Definition lit (s : string) : jsstring :=
  map N_of_ascii (list_ascii_of_string s).

(** [WhiteSpace] and [LineTerminator] code points of ECMA-262, the set
    stripped by [String.prototype.trim] and skipped by [parseFloat] and
    [parseInt]. *)
Definition is_ws (c : N) : bool :=
  (c =? 9) || (c =? 10) || (c =? 11) || (c =? 12) || (c =? 13) || (c =? 32)
  || (c =? 160) || (c =? 5760) || ((8192 <=? c) && (c <=? 8202))
  || (c =? 8232) || (c =? 8233) || (c =? 8239) || (c =? 8287)
  || (c =? 12288) || (c =? 65279).

Fixpoint trim_start (s : jsstring) : jsstring :=
  match s with
  | c :: s' => if is_ws c then trim_start s' else s
  | [] => []
  end.

Definition trim_end (s : jsstring) : jsstring :=
  rev (trim_start (rev s)).

(** [s.trim()] *)
Definition trim (s : jsstring) : jsstring := trim_end (trim_start s).

(** [s.split(sep)] for a one-character separator: always at least one
    piece, the empty string splitting into one empty piece. *)
Fixpoint split (sep : N) (s : jsstring) : list jsstring :=
  match s with
  | [] => [[]]
  | c :: s' =>
      if c =? sep then [] :: split sep s'
      else match split sep s' with
           | piece :: rest => (c :: piece) :: rest
           | [] => [[c]]
           end
  end.

Definition newline : N := 10.
Definition comma : N := 44.

(** *** Numbers

    A Number is kept as the decimal it was read from: [Finite neg m e]
    stands for the double nearest to [(-1)^neg * m * 10^e].  The binary
    rounding of the digits is not represented; what is represented is
    the class the rounding lands in (zero, finite, infinite), since that
    decides truthiness. *)
Inductive jsnum : Type :=
  | NaN
  | Infinity (neg : bool)
  | Finite (neg : bool) (m : N) (e : Z).

(** The literal [0]. *)
Definition zero : jsnum := Finite false 0 0.

(** [m * 10^e <= 2^-1075]: rounds to zero (ties to even). *)
Definition underflows (m : N) (e : Z) : bool :=
  if (0 <=? e)%Z then false
  else (Z.of_N m * 2 ^ 1075 <=? 10 ^ (- e))%Z.

(** [m * 10^e >= 2^1024 - 2^970]: rounds to infinity. *)
Definition overflows (m : N) (e : Z) : bool :=
  let limit := (2 ^ 1024 - 2 ^ 970)%Z in
  if (0 <=? e)%Z then (limit <=? Z.of_N m * 10 ^ e)%Z
  else (limit * 10 ^ (- e) <=? Z.of_N m)%Z.

(** The Number value of the mathematical value [(-1)^neg * m * 10^e]. *)
Definition to_number (neg : bool) (m : N) (e : Z) : jsnum :=
  if m =? 0 then Finite neg 0 0
  else if underflows m e then Finite neg 0 0
  else if overflows m e then Infinity neg
  else Finite neg m e.

Definition digit_of (c : N) : option N :=
  if (48 <=? c) && (c <=? 57) then Some (c - 48) else None.

Definition hex_digit_of (c : N) : option N :=
  if (48 <=? c) && (c <=? 57) then Some (c - 48)
  else if (97 <=? c) && (c <=? 102) then Some (c - 87)
  else if (65 <=? c) && (c <=? 70) then Some (c - 55)
  else None.

(** Longest prefix of digits (as values) and the rest of the string. *)
Fixpoint take_digits (digit : N -> option N) (s : jsstring)
  : list N * jsstring :=
  match s with
  | c :: s' =>
      match digit c with
      | Some d => let '(ds, r) := take_digits digit s' in (d :: ds, r)
      | None => ([], s)
      end
  | [] => ([], [])
  end.

Definition digits_value (radix : N) (ds : list N) : N :=
  fold_left (fun acc d => radix * acc + d) ds 0.

Definition take_sign (s : jsstring) : bool * jsstring :=
  match s with
  | 45 :: r => (true, r)
  | 43 :: r => (false, r)
  | _ => (false, s)
  end.

Fixpoint starts_with (p s : jsstring) : bool :=
  match p, s with
  | [], _ => true
  | a :: p', b :: s' => (a =? b) && starts_with p' s'
  | _ :: _, [] => false
  end.

(** [ExponentPart] after the mantissa: [e] or [E], an optional sign and
    at least one digit; anything else is not part of the literal. *)
Definition take_exponent (s : jsstring) : Z :=
  match s with
  | c :: r =>
      if (c =? 101) || (c =? 69) then
        let '(neg, r1) := take_sign r in
        let '(ds, _) := take_digits digit_of r1 in
        match ds with
        | [] => 0%Z
        | _ => let v := Z.of_N (digits_value 10 ds) in
               if neg then (- v)%Z else v
        end
      else 0%Z
  | [] => 0%Z
  end.

(** [parseFloat] on a string: leading white space is skipped and the
    longest prefix that is a [StrDecimalLiteral] is read; [NaN] when
    there is none. *)
Definition parseFloat_str (s : jsstring) : jsnum :=
  let '(neg, s1) := take_sign (trim_start s) in
  if starts_with (lit "Infinity") s1 then Infinity neg
  else
    let '(ip, s2) := take_digits digit_of s1 in
    let '(fp, s3) :=
      match s2 with
      | 46 :: r =>
          let '(fp, r') := take_digits digit_of r in
          match ip, fp with
          | [], [] => ([], s2)
          | _, _ => (fp, r')
          end
      | _ => ([], s2)
      end in
    match ip, fp with
    | [], [] => NaN
    | _, _ =>
        to_number neg (digits_value 10 (ip ++ fp))
                  (take_exponent s3 - Z.of_nat (length fp))
    end.

(** [parseInt] on a string with no radix argument: radix 10, or 16
    after a [0x] / [0X] prefix. *)
Definition parseInt_str (s : jsstring) : jsnum :=
  let '(neg, s1) := take_sign (trim_start s) in
  let '(radix, digit, s2) :=
    match s1 with
    | 48 :: x :: r =>
        if (x =? 120) || (x =? 88) then (16, hex_digit_of, r)
        else (10, digit_of, s1)
    | _ => (10, digit_of, s1)
    end in
  match take_digits digit s2 with
  | ([], _) => NaN
  | (ds, _) => to_number neg (digits_value radix ds) 0
  end.

(** *** Number to string

    [Number::toString] of ECMA-262 (radix 10), on the digits the model
    keeps: the significand without its trailing zeros plays the part of
    the shortest digit string [s], of length [k], and [n] places the
    decimal point. *)
Fixpoint uint_digits (u : Decimal.uint) : jsstring :=
  match u with
  | Decimal.Nil => []
  | Decimal.D0 u' => 48 :: uint_digits u'
  | Decimal.D1 u' => 49 :: uint_digits u'
  | Decimal.D2 u' => 50 :: uint_digits u'
  | Decimal.D3 u' => 51 :: uint_digits u'
  | Decimal.D4 u' => 52 :: uint_digits u'
  | Decimal.D5 u' => 53 :: uint_digits u'
  | Decimal.D6 u' => 54 :: uint_digits u'
  | Decimal.D7 u' => 55 :: uint_digits u'
  | Decimal.D8 u' => 56 :: uint_digits u'
  | Decimal.D9 u' => 57 :: uint_digits u'
  end.

Definition decimal_digits (n : N) : jsstring := uint_digits (N.to_uint n).

Fixpoint drop_zeros (s : jsstring) : jsstring :=
  match s with
  | 48 :: s' => drop_zeros s'
  | _ => s
  end.

Definition strip_trailing_zeros (s : jsstring) : jsstring :=
  rev (drop_zeros (rev s)).

Definition exponent_suffix (ex : Z) : jsstring :=
  101 :: (if (ex <? 0)%Z then 45 else 43) :: decimal_digits (Z.abs_N ex).

Definition number_to_string (x : jsnum) : jsstring :=
  match x with
  | NaN => lit "NaN"
  | Infinity neg => (if neg then [45] else []) ++ lit "Infinity"
  | Finite neg m e =>
      if m =? 0 then lit "0"
      else
        let ds := decimal_digits m in
        let s := strip_trailing_zeros ds in
        let k := Z.of_nat (length s) in
        let n := (Z.of_nat (length ds) + e)%Z in
        (if neg then [45] else []) ++
        (if (k <=? n)%Z && (n <=? 21)%Z then
           s ++ repeat 48 (Z.to_nat (n - k))
         else if (0 <? n)%Z && (n <=? 21)%Z then
           take (Z.to_nat n) s ++ 46 :: drop (Z.to_nat n) s
         else if (-6 <? n)%Z && (n <=? 0)%Z then
           48 :: 46 :: repeat 48 (Z.to_nat (- n)) ++ s
         else
           match s with
           | [] => []
           | [d] => d :: exponent_suffix (n - 1)
           | d :: rest => d :: 46 :: rest ++ exponent_suffix (n - 1)
           end)
  end.

(** *** Values

    The values a handler can meet in an event: what [JSON.parse]
    produces, plus [undefined].  An object is the list of its own
    properties. *)
Inductive jsval : Type :=
  | Undefined
  | Null
  | Bool (b : bool)
  | Num (x : jsnum)
  | Str (s : jsstring)
  | Arr (items : list jsval)
  | Obj (props : list (jsstring * jsval)).

Definition num_truthy (x : jsnum) : bool :=
  match x with
  | NaN => false
  | Infinity _ => true
  | Finite _ m _ => negb (m =? 0)
  end.

(** [ToBoolean] *)
Definition truthy (v : jsval) : bool :=
  match v with
  | Undefined | Null => false
  | Bool b => b
  | Num x => num_truthy x
  | Str s => match s with [] => false | _ => true end
  | Arr _ | Obj _ => true
  end.

(** [a || b] *)
Definition or_else (a b : jsval) : jsval := if truthy a then a else b.

(** [x || 0] on Numbers, as in [parseFloat(..) || 0]. *)
Definition num_or_zero (x : jsnum) : jsnum :=
  if num_truthy x then x else zero.

Fixpoint own_property (props : list (jsstring * jsval)) (name : jsstring)
  : option jsval :=
  match props with
  | [] => None
  | (k, v) :: rest =>
      if bool_decide (k = name) then Some v else own_property rest name
  end.

(** [v.name] for a [name] that is neither an array index, [length], nor
    a member of a built-in prototype, which covers every name the
    handlers read.  [None] is the [TypeError] of reading a property of
    [undefined] or [null]. *)
Definition get (v : jsval) (name : jsstring) : option jsval :=
  match v with
  | Undefined | Null => None
  | Obj props => Some (default Undefined (own_property props name))
  | Bool _ | Num _ | Str _ | Arr _ => Some Undefined
  end.

(** [v?.name] *)
Definition get_opt (v : jsval) (name : jsstring) : jsval :=
  default Undefined (get v name).

(** [ToString].  An object has no callable members here, so one that
    overrides [toString] cannot be converted ([None], a [TypeError]);
    any other object prints as [[object Object]], and an array joins its
    elements with commas, [undefined] and [null] printing as nothing. *)
Fixpoint ToString (v : jsval) : option jsstring :=
  match v with
  | Undefined => Some (lit "undefined")
  | Null => Some (lit "null")
  | Bool b => Some (if b then lit "true" else lit "false")
  | Num x => Some (number_to_string x)
  | Str s => Some s
  | Arr items =>
      (fix join (l : list jsval) : option jsstring :=
         match l with
         | [] => Some []
         | x :: rest =>
             match (match x with
                    | Undefined | Null => Some []
                    | _ => ToString x
                    end) with
             | None => None
             | Some s =>
                 match rest with
                 | [] => Some s
                 | _ :: _ =>
                     match join rest with
                     | None => None
                     | Some r => Some (s ++ comma :: r)
                     end
                 end
             end
         end) items
  | Obj props =>
      match own_property props (lit "toString") with
      | Some _ => None
      | None => Some (lit "[object Object]")
      end
  end.

(** [parseFloat(v)] and [parseInt(v)]: the argument is converted to a
    string first. *)
Definition parseFloat (v : jsval) : option jsnum :=
  parseFloat_str <$> ToString v.

Definition parseInt (v : jsval) : option jsnum :=
  parseInt_str <$> ToString v.

(** [v === 'text'] *)
Definition is_string (v : jsval) (text : jsstring) : bool :=
  match v with
  | Str s => bool_decide (s = text)
  | _ => false
  end.

(** [typeof v === 'string'] *)
Definition typeof_string (v : jsval) : bool :=
  match v with Str _ => true | _ => false end.

End JS.

(** ** Records, notifications and the outside world *)

Import JS.

(** The ISO-8601 text of an instant ([new Date().toISOString()]), kept
    as the instant in milliseconds. *)
Inductive isotime : Type := ISO (ms : Z).

(** A thrown [Error]: its class and its [message]. *)
Inductive error_class : Type := TypeError | SyntaxError | URIError | ServiceError.

Record jserror : Type := mkError { class : error_class; message : jsstring }.

(** The enriched record of the batch path. *)
Module Enriched.
Record t : Type := mk {
  id : jsstring;
  timestamp : Z;
  nome : jsval;
  categoria : jsval;
  preco : jsnum;
  estoque : jsnum;
  source_file : jsstring;
  processed_at : isotime;
  processor_version : jsstring
}.
End Enriched.

(** The item of the API path. *)
Module ApiItem.
Record t : Type := mk {
  id : jsval;
  timestamp : Z;
  nome : jsval;
  categoria : jsval;
  preco : jsnum;
  estoque : jsnum;
  source : jsstring;
  created_at : isotime;
  created_by : jsval;
  request_id : jsval
}.
End ApiItem.

(** What [putItem] receives. *)
Inductive Item : Type :=
  | FromFile (r : Enriched.t)
  | FromApi (r : ApiItem.t).

Definition item_id (it : Item) : jsval :=
  match it with
  | FromFile r => Str (Enriched.id r)
  | FromApi r => ApiItem.id r
  end.

Definition item_preco (it : Item) : jsnum :=
  match it with
  | FromFile r => Enriched.preco r
  | FromApi r => ApiItem.preco r
  end.

Definition item_estoque (it : Item) : jsnum :=
  match it with
  | FromFile r => Enriched.estoque r
  | FromApi r => ApiItem.estoque r
  end.

(** The three notification objects the handlers build.  The [stack]
    text of the failure notification is left out. *)
Inductive notification : Type :=
  | ProcessingCompleted (file bucket : jsstring)
      (records_processed records_failed total_records : Z)
      (processed_at : isotime) (lambda_request_id : jsval)
  | ProcessingFailed (error : jsstring) (processed_at : isotime)
  | RecordCreated (record_id record_name : jsval) (created_at : isotime).

(** The [params] of [sns.publish]. *)
Record publish_params : Type := mkPublish {
  TopicArn : jsstring;
  Message : notification;
  Subject : jsstring;
  MessageAttributes : list (jsstring * jsstring)
}.

(** The S3 trigger, as S3 delivers it: [event.Records[0].s3.bucket.name]
    and [event.Records[0].s3.object.key]. *)
Record s3_event : Type := mkS3Event { bucket_name : jsstring; object_key : jsstring }.

(** The API Gateway trigger. *)
Record api_event : Type := mkApiEvent {
  httpMethod : jsval;
  body : jsval;
  requestContext : jsval
}.

Record lambda_context : Type := mkContext { requestId : jsval }.

(** Every [console] call of the five modules. *)
Inductive logline : Type :=
  | S3Reading (bucket key : jsstring)
  | S3ReadError (e : jserror)
  | DynamoInserted (id : jsstring)
  | DynamoInsertError (e : jserror)
  | SnsPublishing (topic : jsstring)
  | SnsPublished (message_id : jsstring)
  | SnsPublishError (e : jserror)
  | ProcessorStarted
  | ProcessorEvent (ev : s3_event)
  | ProcessingFile (bucket key : jsstring)
  | ContentRead (length : nat)
  | HeadersFound (headers : list jsstring)
  | TotalLines (n : nat)
  | RowIncomplete (line_no : nat)
  | RowProcessed (line_no : nat) (nome : jsval)
  | RowError (line_no : nat) (msg : jsstring)
  | ProcessingDone (processed failed total : Z)
  | FatalError (e : jserror)
  | FailureNotificationError (e : jserror)
  | ApiStarted
  | ApiEvent (ev : api_event)
  | CreatingRecord (item : ApiItem.t)
  | CreateRecordError (e : jserror).

(** What a run does to the outside, most recent first. *)
Inductive effect : Type :=
  | Console (l : logline)
  | S3Get (bucket key : jsstring)
  | DynamoPut (item : Item)
  | SnsPublish (p : publish_params).

(** The collaborators and the ambient runtime of an invocation.  The
    store and the notifier answer per call, by the number of the call
    and its argument; an error stands for a rejected promise. *)
Record World : Type := mkWorld {
  TOPIC_ARN : option jsstring;
  s3_getObject : jsstring -> jsstring -> jserror + jsstring;
  dynamodb_put : nat -> Item -> option jserror;
  sns_publish : nat -> publish_params -> jserror + jsstring;
  clock : nat -> Z;
  uuid_source : nat -> jsstring;
  JSON_parse : jsstring -> jserror + jsval;
  decodeURIComponent : jsstring -> jserror + jsstring
}.

Record St : Type := mkSt {
  trace : list effect;
  puts : nat;
  publishes : nat;
  clock_reads : nat;
  uuids : nat
}.

Definition initial : St := mkSt [] 0 0 0 0.

(** ** Computations that may throw *)

Inductive outcome (A : Type) : Type :=
  | Returned (a : A)
  | Thrown (e : jserror).
Arguments Returned {A} a.
Arguments Thrown {A} e.

Definition M (A : Type) : Type := World -> St -> outcome A * St.

Definition ret {A} (a : A) : M A := fun _ st => (Returned a, st).

Definition bind {A B} (c : M A) (k : A -> M B) : M B :=
  fun w st =>
    match c w st with
    | (Returned a, st') => k a w st'
    | (Thrown e, st') => (Thrown e, st')
    end.

Definition throw {A} (e : jserror) : M A := fun _ st => (Thrown e, st).

(** [try { c } catch (e) { h e }]: what [c] did before throwing stays
    done. *)
Definition try_catch {A} (c : M A) (h : jserror -> M A) : M A :=
  fun w st =>
    match c w st with
    | (Returned a, st') => (Returned a, st')
    | (Thrown e, st') => h e w st'
    end.

Declare Scope js_scope.
Delimit Scope js_scope with js.
Notation "x <- c ;; k" := (bind c (fun x => k))
  (at level 100, c at next level, right associativity) : js_scope.
Notation "c ;; k" := (bind c (fun _ => k))
  (at level 100, right associativity) : js_scope.
#[local] Open Scope js_scope.

Definition emit (e : effect) : M unit :=
  fun _ st =>
    (Returned tt,
     mkSt (e :: trace st) (puts st) (publishes st) (clock_reads st) (uuids st)).

Definition console (l : logline) : M unit := emit (Console l).

Definition ask {A} (f : World -> A) : M A := fun w st => (Returned (f w), st).

(** [Date.now()] and [new Date()]: one reading of the clock. *)
Definition now : M Z :=
  fun w st =>
    (Returned (clock w (clock_reads st)),
     mkSt (trace st) (puts st) (publishes st) (S (clock_reads st)) (uuids st)).

(** [uuidv4()] *)
Definition uuidv4 : M jsstring :=
  fun w st =>
    (Returned (uuid_source w (uuids st)),
     mkSt (trace st) (puts st) (publishes st) (clock_reads st) (S (uuids st))).

Definition of_sum {A} (r : jserror + A) : M A :=
  match r with
  | inl e => throw e
  | inr a => ret a
  end.

(** Conversions that throw a [TypeError]; the message texts are V8's. *)
Definition type_error : jserror :=
  mkError TypeError (lit "Cannot convert object to primitive value").

Definition to_string (v : jsval) : M jsstring :=
  match ToString v with
  | Some s => ret s
  | None => throw type_error
  end.

Definition read (v : jsval) (name : jsstring) : M jsval :=
  match get v name with
  | Some x => ret x
  | None => throw (mkError TypeError (lit "Cannot read properties of " ++
                   match v with Null => lit "null" | _ => lit "undefined" end ++
                   lit " (reading '" ++ name ++ lit "')"))
  end.

(** [parseFloat(v) || 0] and [parseInt(v) || 0] *)
Definition float_or_zero (v : jsval) : M jsnum :=
  match parseFloat v with
  | Some x => ret (num_or_zero x)
  | None => throw type_error
  end.

Definition int_or_zero (v : jsval) : M jsnum :=
  match parseInt v with
  | Some x => ret (num_or_zero x)
  | None => throw type_error
  end.

Fixpoint for_each {A B} (f : A -> M B) (l : list A) : M (list B) :=
  match l with
  | [] => ret []
  | a :: l' => b <- f a ;; bs <- for_each f l' ;; ret (b :: bs)
  end.

(** ** utils/s3.js, utils/dynamodb.js, utils/sns.js *)

Module S3.

Definition getObject_call (bucket key : jsstring) : M jsstring :=
  emit (S3Get bucket key) ;;
  r <- ask (fun w => s3_getObject w bucket key) ;;
  of_sum r.

Definition getObject (bucket key : jsstring) : M jsstring :=
  try_catch
    (console (S3Reading bucket key) ;;
     getObject_call bucket key)
    (fun error => console (S3ReadError error) ;; throw error).

End S3.

Module DynamoDB.

(** [dynamodb.put(params).promise()]: the call is recorded whether or
    not the store accepts it. *)
Definition put_call (item : Item) : M unit :=
  fun w st =>
    let st' := mkSt (DynamoPut item :: trace st) (S (puts st))
                    (publishes st) (clock_reads st) (uuids st) in
    match dynamodb_put w (puts st) item with
    | None => (Returned tt, st')
    | Some e => (Thrown e, st')
    end.

Definition putItem (item : Item) : M unit :=
  try_catch
    (put_call item ;;
     id <- to_string (item_id item) ;;
     console (DynamoInserted id))
    (fun error => console (DynamoInsertError error) ;; throw error).

End DynamoDB.

Module SNS.

Definition publish_call (p : publish_params) : M jsstring :=
  fun w st =>
    let st' := mkSt (SnsPublish p :: trace st) (puts st)
                    (S (publishes st)) (clock_reads st) (uuids st) in
    match sns_publish w (publishes st) p with
    | inr message_id => (Returned message_id, st')
    | inl e => (Thrown e, st')
    end.

Definition publishMessage (topicArn : jsstring) (message : notification)
    (subject : jsstring) (attributes : list (jsstring * jsval)) : M unit :=
  attrs <- for_each (fun kv => s <- to_string (snd kv) ;; ret (fst kv, s))
                    attributes ;;
  let params := mkPublish topicArn message subject attrs in
  try_catch
    (console (SnsPublishing topicArn) ;;
     message_id <- publish_call params ;;
     console (SnsPublished message_id))
    (fun error => console (SnsPublishError error) ;; throw error).

End SNS.

(** [const topicArn = process.env.TOPIC_ARN; if (topicArn) ...]: the
    topic to publish to, when the variable holds a non-empty string. *)
Definition topic (w : World) : option jsstring :=
  match TOPIC_ARN w with
  | Some (c :: s) => Some (c :: s)
  | _ => None
  end.

Definition topic_if_set : M (option jsstring) := ask topic.

(** ** handlers/dataProcessor.js *)

Module DataProcessor.

(** The two bodies the handler returns.  [success_rate] keeps the two
    operands of [processedCount / (lines.length - 1)]; the percentage
    text that [toFixed(2)] makes of their quotient is not represented. *)
Inductive payload : Type :=
  | Summary (message file : jsstring)
      (records_processed records_failed total_records : Z)
      (success_rate : Z * Z)
  | Failure (message error : jsstring).

Record response : Type := mkResponse { statusCode : Z; response_body : payload }.

(** [headers.forEach((header, index) => record[header] = values[index])].
    Storing [undefined] under a key reads back as [undefined], like a
    key that is not there, so a missing column removes the key. *)
Fixpoint assign_columns (headers : list jsstring) (index : nat)
    (values : list jsstring) (record : gmap jsstring jsstring)
  : gmap jsstring jsstring :=
  match headers with
  | [] => record
  | header :: rest =>
      assign_columns rest (S index) values
        match values !! index with
        | Some v => <[header := v]> record
        | None => delete header record
        end
  end.

(** [record.name] *)
Definition field (record : gmap jsstring jsstring) (name : jsstring) : jsval :=
  match record !! name with
  | Some s => Str s
  | None => Undefined
  end.

(** The record of one non-blank line. *)
Definition decode_row (headers : list jsstring) (line : jsstring)
  : gmap jsstring jsstring :=
  assign_columns headers 0 (map trim (split comma line)) ∅.

(** The loop's variables: [records], [processedCount], [errorCount]. *)
Record counters : Type := mkCounters {
  records : list Enriched.t;
  processedCount : Z;
  errorCount : Z
}.

(** Steps 3 to 5 for line [lines[i]] once it is known not to be blank.
    The counters are only touched after the last call that can throw,
    so the [catch] sees them as they were before the row. *)
Definition process_row (headers : list jsstring) (key : jsstring) (i : nat)
    (line : jsstring) (acc : counters) : M counters :=
  try_catch
    (let record := decode_row headers line in
     if negb (truthy (field record (lit "id")))
        || negb (truthy (field record (lit "nome")))
     then
       console (RowIncomplete (i + 1)) ;;
       ret (mkCounters (records acc) (processedCount acc) (errorCount acc + 1))
     else
       id <- to_string (field record (lit "id")) ;;
       timestamp <- now ;;
       let nome := field record (lit "nome") in
       let categoria := or_else (field record (lit "categoria"))
                                (Str (lit "Sem categoria")) in
       preco <- float_or_zero (field record (lit "preco")) ;;
       estoque <- int_or_zero (field record (lit "estoque")) ;;
       processed_at <- now ;;
       let enrichedRecord :=
         Enriched.mk id timestamp nome categoria preco estoque key
                     (ISO processed_at) (lit "1.0.0") in
       DynamoDB.putItem (FromFile enrichedRecord) ;;
       console (RowProcessed (i + 1) nome) ;;
       ret (mkCounters (records acc ++ [enrichedRecord])
                       (processedCount acc + 1) (errorCount acc)))
    (fun error =>
       console (RowError (i + 1) (message error)) ;;
       ret (mkCounters (records acc) (processedCount acc) (errorCount acc + 1))).

(** [for (let i = 1; i < lines.length; i++)] over [lines[i..]]. *)
Fixpoint process_lines (headers : list jsstring) (key : jsstring) (i : nat)
    (rest : list jsstring) (acc : counters) : M counters :=
  match rest with
  | [] => ret acc
  | raw :: rest' =>
      let line := trim raw in
      match line with
      | [] => process_lines headers key (S i) rest' acc
      | _ :: _ =>
          acc' <- process_row headers key i line acc ;;
          process_lines headers key (S i) rest' acc'
      end
  end.

(** [record.s3.object.key.replace(/\+/g, ' ')] *)
Definition plus_to_space (s : jsstring) : jsstring :=
  map (fun c => if c =? 43 then 32 else c) s.

(** [csvContent.trim().split('\n')] *)
Definition lines_of (csvContent : jsstring) : list jsstring :=
  split newline (trim csvContent).

(** [lines[0].split(',').map(h => h.trim())] *)
Definition headers_of (lines : list jsstring) : list jsstring :=
  map trim (split comma (hd [] lines)).

(** [lines.length - 1] *)
Definition total_of (lines : list jsstring) : Z :=
  Z.of_nat (length lines) - 1.

(** Steps 6 and 7, after the loop. *)
Definition finish (bucket key : jsstring) (lines : list jsstring)
    (context : lambda_context) (acc : counters) : M response :=
  topicArn <- topic_if_set ;;
  processed_at <- now ;;
  let notification :=
    ProcessingCompleted key bucket (processedCount acc) (errorCount acc)
      (total_of lines) (ISO processed_at) (requestId context) in
  match topicArn with
  | Some arn =>
      SNS.publishMessage arn notification (lit "Data Processing Completed")
        [(lit "event_type", Str (lit "processing_completed"));
         (lit "file_name", Str key);
         (lit "records_count",
          Str (number_to_string (Finite false (Z.to_N (processedCount acc)) 0)))]
  | None => ret tt
  end ;;
  let result :=
    mkResponse 200
      (Summary (lit "Processamento conclu" ++ 237 :: lit "do com sucesso") key
         (processedCount acc) (errorCount acc) (total_of lines)
         (processedCount acc, total_of lines)) in
  console (ProcessingDone (processedCount acc) (errorCount acc) (total_of lines)) ;;
  ret result.

(** The [catch] of the handler. *)
Definition on_fatal (error : jserror) : M response :=
  console (FatalError error) ;;
  try_catch
    (topicArn <- topic_if_set ;;
     match topicArn with
     | Some arn =>
         processed_at <- now ;;
         SNS.publishMessage arn
           (ProcessingFailed (message error) (ISO processed_at))
           (lit "Data Processing Failed") []
     | None => ret tt
     end)
    (fun notifyError => console (FailureNotificationError notifyError)) ;;
  ret (mkResponse 500 (Failure (lit "Erro no processamento") (message error))).

Definition handler (event : s3_event) (context : lambda_context) : M response :=
  console ProcessorStarted ;;
  console (ProcessorEvent event) ;;
  try_catch
    (let bucket := bucket_name event in
     decoded <- ask (fun w => decodeURIComponent w (plus_to_space (object_key event))) ;;
     key <- of_sum decoded ;;
     console (ProcessingFile bucket key) ;;
     csvContent <- S3.getObject bucket key ;;
     console (ContentRead (length csvContent)) ;;
     let lines := lines_of csvContent in
     let headers := headers_of lines in
     console (HeadersFound headers) ;;
     console (TotalLines (length lines)) ;;
     acc <- process_lines headers key 1 (tl lines) (mkCounters [] 0 0) ;;
     finish bucket key lines context acc)
    on_fatal.

End DataProcessor.

(** ** handlers/createRecord.js *)

Module CreateRecord.

(** The object the handler passes to [JSON.stringify] for the body of an
    answer, not the text that [JSON.stringify] makes of it: the text of a
    [Created] body drops fields that are [undefined] and prints [NaN] and
    the infinities as [null], so it need not show the stored item as it
    is.  The error bodies hold strings only. *)
Inductive payload : Type :=
  | Preflight (message : jsstring)
  | ErrorBody (error message : jsstring)
  | Created (message : jsstring) (id : jsval) (timestamp : Z) (data : ApiItem.t).

Record response : Type := mkResponse {
  statusCode : Z;
  headers : list (jsstring * jsstring);
  response_body : payload
}.

Definition cors_headers : list (jsstring * jsstring) :=
  [(lit "Content-Type", lit "application/json");
   (lit "Access-Control-Allow-Origin", lit "*");
   (lit "Access-Control-Allow-Methods", lit "POST, OPTIONS");
   (lit "Access-Control-Allow-Headers", lit "Content-Type")].

Definition method_not_allowed : response :=
  mkResponse 405 cors_headers
    (ErrorBody (lit "Method Not Allowed")
               (lit "Apenas POST " ++ 233 :: lit " permitido")).

Definition invalid_json : response :=
  mkResponse 400 cors_headers
    (ErrorBody (lit "Invalid JSON")
               (lit "Body da requisi" ++ 231 :: 227 :: lit "o n" ++ 227 ::
                lit "o " ++ 233 :: lit " um JSON v" ++ 225 :: lit "lido")).

Definition validation_error : response :=
  mkResponse 400 cors_headers
    (ErrorBody (lit "Validation Error")
               (lit "Campo " ++ 34 :: lit "nome" ++ 34 :: lit " " ++ 233 ::
                lit " obrigat" ++ 243 :: lit "rio")).

Definition internal_error (error : jserror) : response :=
  mkResponse 500 cors_headers
    (ErrorBody (lit "Internal Server Error") (message error)).

(** Step 2: [typeof event.body === 'string' ? JSON.parse(event.body) :
    event.body], [None] standing for the [return] of the inner [catch]. *)
Definition parse_body (event : api_event) : M (option jsval) :=
  try_catch
    (match body event with
     | Str text =>
         parsed <- ask (fun w => JSON_parse w text) ;;
         value <- of_sum parsed ;;
         ret (Some value)
     | other => ret (Some other)
     end)
    (fun parseError => ret None).

(** Steps 3 to 7, on the interpreted body. *)
Definition create (event : api_event) (context : lambda_context)
    (body : jsval) : M response :=
  nome <- read body (lit "nome") ;;
  if negb (truthy nome) then ret validation_error
  else
    id <- read body (lit "id") ;;
    itemId <- (if truthy id then ret id
               else fresh <- uuidv4 ;; ret (Str fresh)) ;;
    timestamp <- now ;;
    nome <- read body (lit "nome") ;;
    categoria <- read body (lit "categoria") ;;
    raw_preco <- read body (lit "preco") ;;
    preco <- float_or_zero raw_preco ;;
    raw_estoque <- read body (lit "estoque") ;;
    estoque <- int_or_zero raw_estoque ;;
    created_at <- now ;;
    let item :=
      ApiItem.mk itemId timestamp nome
        (or_else categoria (Str (lit "API"))) preco estoque (lit "API")
        (ISO created_at)
        (or_else (get_opt (get_opt (requestContext event) (lit "identity"))
                          (lit "sourceIp"))
                 (Str (lit "unknown")))
        (requestId context) in
    console (CreatingRecord item) ;;
    DynamoDB.putItem (FromApi item) ;;
    topicArn <- topic_if_set ;;
    match topicArn with
    | Some arn =>
        SNS.publishMessage arn
          (RecordCreated itemId nome (ApiItem.created_at item))
          (lit "New Record Created via API")
          [(lit "event_type", Str (lit "api_creation"));
           (lit "record_id", itemId)]
    | None => ret tt
    end ;;
    ret (mkResponse 201 cors_headers
           (Created (lit "Registro criado com sucesso") itemId timestamp item)).

Definition handler (event : api_event) (context : lambda_context) : M response :=
  console ApiStarted ;;
  console (ApiEvent event) ;;
  if is_string (httpMethod event) (lit "OPTIONS") then
    ret (mkResponse 200 cors_headers
           (Preflight (lit "CORS preflight successful")))
  else
    try_catch
      (if negb (is_string (httpMethod event) (lit "POST")) then
         ret method_not_allowed
       else
         parsed <- parse_body event ;;
         match parsed with
         | None => ret invalid_json
         | Some body => create event context body
         end)
      (fun error => console (CreateRecordError error) ;; ret (internal_error error)).

End CreateRecord.

(** ** Observations on a run *)

#[local] Open Scope Z_scope.

(** The items handed to [putItem], most recent first. *)
Fixpoint stored (tr : list effect) : list Item :=
  match tr with
  | [] => []
  | DynamoPut it :: tr' => it :: stored tr'
  | _ :: tr' => stored tr'
  end.

(** The notifications handed to [sns.publish], most recent first. *)
Fixpoint published (tr : list effect) : list notification :=
  match tr with
  | [] => []
  | SnsPublish p :: tr' => Message p :: published tr'
  | _ :: tr' => published tr'
  end.

(** The console lines of a run, most recent first. *)
Fixpoint console_lines (tr : list effect) : list logline :=
  match tr with
  | [] => []
  | Console l :: tr' => l :: console_lines tr'
  | _ :: tr' => console_lines tr'
  end.

(** A row that reaches the [try] of the loop leaves exactly one of
    three lines on the console: skipped as incomplete, processed, or
    failed. *)
Definition is_row_outcome (e : effect) : bool :=
  match e with
  | Console (RowIncomplete _) | Console (RowProcessed _ _)
  | Console (RowError _ _) => true
  | _ => false
  end.

Definition rows_attempted (tr : list effect) : nat :=
  length (filter (fun e => is_row_outcome e = true) tr).

(** The [(records_processed, records_failed, total_records)] of every
    completion report in the trace: the notification handed to the
    notifier and the line logged with the result. *)
Fixpoint reports (tr : list effect) : list (Z * Z * Z) :=
  match tr with
  | [] => []
  | SnsPublish p :: tr' =>
      match Message p with
      | ProcessingCompleted _ _ processed failed total _ _ =>
          (processed, failed, total) :: reports tr'
      | _ => reports tr'
      end
  | Console (ProcessingDone processed failed total) :: tr' =>
      (processed, failed, total) :: reports tr'
  | _ :: tr' => reports tr'
  end.

Definition logged (l : logline) (st : St) : St :=
  mkSt (Console l :: trace st) (puts st) (publishes st) (clock_reads st) (uuids st).

(** The state after [putItem] was called on [item]: the call, then the
    line [putItem] logs. *)
Definition after_put (item : Item) (l : logline) (st : St) : St :=
  mkSt (Console l :: DynamoPut item :: trace st)
       (S (puts st)) (publishes st) (clock_reads st) (uuids st).

(** The state after [publishMessage] called [sns.publish] on [p]: the
    line before the call, the call, the line after it. *)
Definition after_publish (p : publish_params) (l : logline) (st : St) : St :=
  mkSt (Console l :: SnsPublish p :: Console (SnsPublishing (TopicArn p)) :: trace st)
       (puts st) (S (publishes st)) (clock_reads st) (uuids st).

(** The state after [n] readings of the clock. *)
Definition ticked (n : nat) (st : St) : St :=
  mkSt (trace st) (puts st) (publishes st) (n + clock_reads st)%nat (uuids st).

(** [String(v)] for a value that converts. *)
Definition text_of (v : jsval) : jsstring := default [] (ToString v).

Definition nonneg (x : jsnum) : Prop :=
  match x with
  | NaN => False
  | Infinity neg => neg = false
  | Finite neg m _ => neg = false \/ m = 0%N
  end.

(** An integer written without exponent, or an infinity. *)
Definition integral (x : jsnum) : Prop :=
  match x with
  | NaN => False
  | Infinity _ => True
  | Finite _ _ e => e = 0
  end.

(** [x] is what [parsed || 0] leaves: never [NaN]; [0] when the parse is
    [NaN] or zero; the parsed number, sign included, otherwise. *)
Definition defaulted (parsed : option jsnum) (x : jsnum) : Prop :=
  x <> NaN /\
  match parsed with
  | Some p => if num_truthy p then x = p else x = zero
  | None => False
  end.

Module Batch.
Import DataProcessor.

(** The object literal of step 4, for the two readings of the clock. *)
Definition enriched_record (record : gmap jsstring jsstring) (key : jsstring)
    (timestamp processed_at : Z) : Enriched.t :=
  Enriched.mk (text_of (field record (lit "id"))) timestamp
    (field record (lit "nome"))
    (or_else (field record (lit "categoria")) (Str (lit "Sem categoria")))
    (num_or_zero (parseFloat_str (text_of (field record (lit "preco")))))
    (num_or_zero (parseInt_str (text_of (field record (lit "estoque")))))
    key (ISO processed_at) (lit "1.0.0").

Definition rejected (acc : counters) : counters :=
  mkCounters (records acc) (processedCount acc) (errorCount acc + 1).

Definition accepted (acc : counters) (r : Enriched.t) : counters :=
  mkCounters (records acc ++ [r]) (processedCount acc + 1) (errorCount acc).

(** The lines the loop does not skip. *)
Definition nonblank (rest : list jsstring) : list jsstring :=
  filter (fun raw => trim raw <> []) rest.

(** The [params] of the completion notification built at time [t]. *)
Definition completion_params (arn bucket key : jsstring) (lines : list jsstring)
    (context : lambda_context) (acc : counters) (t : Z) : publish_params :=
  mkPublish arn
    (ProcessingCompleted key bucket (processedCount acc) (errorCount acc)
       (total_of lines) (ISO t) (requestId context))
    (lit "Data Processing Completed")
    [(lit "event_type", lit "processing_completed");
     (lit "file_name", key);
     (lit "records_count",
      number_to_string (Finite false (Z.to_N (processedCount acc)) 0))].

(** The [params] of the failure notification built at time [t]. *)
Definition failure_params (arn : jsstring) (error : jserror) (t : Z)
  : publish_params :=
  mkPublish arn (ProcessingFailed (message error) (ISO t))
    (lit "Data Processing Failed") [].

(** The result of step 7. *)
Definition summary (key : jsstring) (lines : list jsstring) (acc : counters)
  : response :=
  mkResponse 200
    (Summary (lit "Processamento conclu" ++ 237%N :: lit "do com sucesso") key
       (processedCount acc) (errorCount acc) (total_of lines)
       (processedCount acc, total_of lines)).

(** The result of the handler's [catch]. *)
Definition failed (error : jserror) : response :=
  mkResponse 500 (Failure (lit "Erro no processamento") (message error)).

Definition done_line (lines : list jsstring) (acc : counters) : logline :=
  ProcessingDone (processedCount acc) (errorCount acc) (total_of lines).

(** The status code of a run that returned. *)
Definition status (run : outcome response * St) : option Z :=
  match fst run with
  | Returned resp => Some (statusCode resp)
  | Thrown _ => None
  end.

(** The state in which the loop starts, for a batch that was read. *)
Definition at_loop_start (event : s3_event) (key csv : jsstring) (st : St) : St :=
  logged (TotalLines (length (lines_of csv)))
    (logged (HeadersFound (headers_of (lines_of csv)))
      (logged (ContentRead (length csv))
        (mkSt (S3Get (bucket_name event) key
               :: Console (S3Reading (bucket_name event) key)
               :: Console (ProcessingFile (bucket_name event) key)
               :: Console (ProcessorEvent event)
               :: Console ProcessorStarted :: trace st)
              (puts st) (publishes st) (clock_reads st) (uuids st)))).

End Batch.

Module Api.
Import CreateRecord.

(** [v] is the body of the request as step 2 interprets it: the parse
    of a string body, or the body itself when it is not a string. *)
Definition interpreted (w : World) (event : api_event) (v : jsval) : Prop :=
  match body event with
  | Str text => JSON_parse w text = inr v
  | other => v = other
  end.

(** The object literal of step 4. *)
Definition new_item (event : api_event) (context : lambda_context)
    (v itemId : jsval) (preco estoque : jsnum) (timestamp created_at : Z)
  : ApiItem.t :=
  ApiItem.mk itemId timestamp (get_opt v (lit "nome"))
    (or_else (get_opt v (lit "categoria")) (Str (lit "API")))
    preco estoque (lit "API") (ISO created_at)
    (or_else (get_opt (get_opt (requestContext event) (lit "identity"))
                      (lit "sourceIp"))
             (Str (lit "unknown")))
    (requestId context).

(** The response of step 7. *)
Definition created (item : ApiItem.t) : response :=
  mkResponse 201 cors_headers
    (Created (lit "Registro criado com sucesso") (ApiItem.id item)
             (ApiItem.timestamp item) item).

(** The [params] of the creation notification; [id_text] is
    [String(itemId)]. *)
Definition creation_params (arn : jsstring) (item : ApiItem.t)
    (id_text : jsstring) : publish_params :=
  mkPublish arn
    (RecordCreated (ApiItem.id item) (ApiItem.nome item) (ApiItem.created_at item))
    (lit "New Record Created via API")
    [(lit "event_type", lit "api_creation"); (lit "record_id", id_text)].

(** The status code of a run that returned. *)
Definition status (run : outcome response * St) : option Z :=
  match fst run with
  | Returned resp => Some (statusCode resp)
  | Thrown _ => None
  end.

End Api.

(** ** Sample worlds *)

Module Sample.

Definition failure (text : string) : jserror := mkError ServiceError (lit text).

(** The text [{"nome":"Widget"}]. *)
Definition widget_json : jsstring :=
  lit "{" ++ 34%N :: lit "nome" ++ 34%N :: lit ":" ++ 34%N :: lit "Widget" ++ 34%N :: lit "}".

Definition widget : jsval := Obj [(lit "nome", Str (lit "Widget"))].

(** A world serving one CSV object, with a topic configured; [put_fails]
    says which store calls are refused and [publish_fails] whether the
    notifier refuses. *)
Definition world (csv : jsstring) (put_fails : nat -> bool)
    (publish_fails : bool) : World :=
  mkWorld (Some (lit "arn:aws:sns:us-east-1:000000000000:DataProcessingTopic"))
    (fun _ _ => inr csv)
    (fun n _ => if put_fails n then Some (failure "store unavailable") else None)
    (fun n _ => if publish_fails then inl (failure "topic unavailable")
                else inr (lit "message-" ++ decimal_digits (N.of_nat n)))
    (fun n => 1700000000000 + Z.of_nat n)
    (fun n => lit "uuid-" ++ decimal_digits (N.of_nat n))
    (fun text => if bool_decide (text = widget_json) then inr widget
                 else inl (mkError SyntaxError (lit "Unexpected token")))
    (fun s => inr s).

Definition never (n : nat) : bool := false.
Definition always (n : nat) : bool := true.

Definition upload : s3_event := mkS3Event (lit "data-bucket") (lit "input/produtos.csv").
Definition context : lambda_context := mkContext (Str (lit "req-1")).

Definition post (body : jsval) : api_event :=
  mkApiEvent (Str (lit "POST")) body Undefined.

Definition header_line : jsstring := lit "id,nome,categoria,preco,estoque".

(** Header, a blank line, one data row. *)
Definition csv_with_blank : jsstring :=
  header_line ++ 10%N :: 10%N :: lit "1,Caneta,Papelaria,2.50,100".

(** Header and one data row. *)
Definition csv_one_row : jsstring :=
  header_line ++ 10%N :: lit "1,Caneta,Papelaria,2.50,100".

(** Header and one data row with negative numbers. *)
Definition csv_negative : jsstring :=
  header_line ++ 10%N :: lit "1,Caneta,Papelaria,-5,-3".

(** Header and three rows: one complete with a non-numeric price, one
    with neither id nor name, one complete. *)
Definition csv_mixed : jsstring :=
  header_line ++ 10%N :: lit "1,Caneta,Papelaria,abc,100"
              ++ 10%N :: lit ",,Papelaria,1.00,5"
              ++ 10%N :: lit "3,Borracha,,0.75,40".

End Sample.

(** ** Field texts and the numbers read from them *)

(** A code unit that a finite decimal literal can hold: a digit, a sign,
    the dot, or the [e] of an exponent. *)
Definition literal_unit (c : N) : bool :=
  match digit_of c with
  | Some _ => true
  | None =>
      ((c =? 43) || (c =? 45) || (c =? 46) || (c =? 101) || (c =? 69))%N
  end.

(** A text that holds, white space around it aside, a code unit that no
    finite decimal literal holds: it is not a number written out,
    whatever its first characters are. *)
Definition not_a_decimal (s : jsstring) : bool :=
  existsb (fun c => negb (literal_unit c)) (trim s).

(** Whether [parseFloat] finds a literal at the start of a text: after
    white space and an optional sign, [Infinity], a digit, or a dot
    followed by a digit. *)
Definition begins_number (s : jsstring) : bool :=
  let '(_, s1) := take_sign (trim_start s) in
  starts_with (lit "Infinity") s1
  || match s1 with
     | c :: r =>
         match digit_of c with
         | Some _ => true
         | None =>
             (c =? 46)%N
             && match r with
                | d :: _ =>
                    match digit_of d with Some _ => true | None => false end
                | [] => false
                end
         end
     | [] => false
     end.

(** Header and one data row whose price opens with digits and goes on
    with letters. *)
Definition csv_prefixed : jsstring :=
  Sample.header_line ++ 10%N :: lit "1,Caneta,Papelaria,12abc,100".

(** ** Further observations on a run *)

Definition is_inserted (e : effect) : bool :=
  match e with Console (DynamoInserted _) => true | _ => false end.

Definition is_refused (e : effect) : bool :=
  match e with Console (DynamoInsertError _) => true | _ => false end.

Definition is_incomplete (e : effect) : bool :=
  match e with Console (RowIncomplete _) => true | _ => false end.

Definition is_s3_read (e : effect) : bool :=
  match e with S3Get _ _ => true | _ => false end.

(** How many effects of a kind a trace holds. *)
Definition count (kind : effect -> bool) (tr : list effect) : nat :=
  length (filter (fun e => kind e = true) tr).

(** The line passes the validation of step 3: it has a usable [id] and
    a usable [nome]. *)
Definition complete (headers : list jsstring) (raw : jsstring) : bool :=
  truthy (DataProcessor.field (DataProcessor.decode_row headers (trim raw)) (lit "id"))
  && truthy (DataProcessor.field (DataProcessor.decode_row headers (trim raw)) (lit "nome")).

(** ** utils/dynamodb.js and utils/s3.js beyond the handlers' calls *)

Module Tools.

(** An error of the AWS SDK: its [code] and its [message]. *)
Record sdk_error : Type := mkSdkError { code : jsval; sdk_message : jsstring }.

(** [process.env.TABLE_NAME || 'ProcessedData'] *)
Definition tableName (TABLE_NAME : option jsstring) : jsstring :=
  match TABLE_NAME with
  | Some (c :: s) => c :: s
  | _ => lit "ProcessedData"
  end.

(** [`#attr${index}`] and [`:val${index}`]; an index prints as its
    decimal digits. *)
Definition placeholder (index : nat) : jsstring :=
  lit "#attr" ++ decimal_digits (N.of_nat index).

Definition valuePlaceholder (index : nat) : jsstring :=
  lit ":val" ++ decimal_digits (N.of_nat index).

(** The three variables [updateItem] fills. *)
Record expression : Type := mkExpression {
  updateExpressionParts : list jsstring;
  expressionAttributeNames : gmap jsstring jsstring;
  expressionAttributeValues : gmap jsstring jsval
}.

(** [Object.keys(updates).forEach((key, index) => ...)], on the own
    properties of [updates] in the order [Object.keys] lists them. *)
Fixpoint collect (updates : list (jsstring * jsval)) (index : nat)
    (acc : expression) : expression :=
  match updates with
  | [] => acc
  | (key, value) :: rest =>
      collect rest (S index)
        (mkExpression
           (updateExpressionParts acc
            ++ [placeholder index ++ lit " = " ++ valuePlaceholder index])
           (<[placeholder index := key]> (expressionAttributeNames acc))
           (<[valuePlaceholder index := value]> (expressionAttributeValues acc)))
  end.

(** [parts.join(sep)] *)
Fixpoint join (sep : jsstring) (parts : list jsstring) : jsstring :=
  match parts with
  | [] => []
  | part :: rest =>
      match rest with
      | [] => part
      | _ :: _ => part ++ sep ++ join sep rest
      end
  end.

(** The [params] of [dynamodb.update]. *)
Record update_params : Type := mkUpdate {
  TableName : jsstring;
  Key : jsstring * Z;
  UpdateExpression : jsstring;
  ExpressionAttributeNames : gmap jsstring jsstring;
  ExpressionAttributeValues : gmap jsstring jsval;
  ReturnValues : jsstring
}.

Definition update_request (TABLE_NAME : option jsstring) (id : jsstring)
    (timestamp : Z) (updates : list (jsstring * jsval)) : update_params :=
  let built := collect updates 0 (mkExpression [] ∅ ∅) in
  mkUpdate (tableName TABLE_NAME) (id, timestamp)
    (lit "SET " ++ join (lit ", ") (updateExpressionParts built))
    (expressionAttributeNames built) (expressionAttributeValues built)
    (lit "ALL_NEW").

Inductive tool_log : Type :=
  | ItemUpdated (id : jsstring)
  | UpdateError (e : sdk_error).

(** [updateItem(id, timestamp, updates)], for the answer [update] of
    [dynamodb.update(params).promise()]: the [Attributes] of the result,
    or the error thrown again after it is logged. *)
Definition updateItem (update : update_params -> sdk_error + jsval)
    (TABLE_NAME : option jsstring) (id : jsstring) (timestamp : Z)
    (updates : list (jsstring * jsval))
  : (sdk_error + jsval) * list tool_log :=
  match update (update_request TABLE_NAME id timestamp updates) with
  | inr attributes => (inr attributes, [ItemUpdated id])
  | inl error => (inl error, [UpdateError error])
  end.

(** [bucketExists(bucket)], for the answer [headBucket] of
    [s3.headBucket({ Bucket: bucket }).promise()]. *)
Definition bucketExists (headBucket : jsstring -> option sdk_error)
    (bucket : jsstring) : sdk_error + bool :=
  match headBucket bucket with
  | None => inr true
  | Some error =>
      if is_string (code error) (lit "NotFound") then inr false
      else inl error
  end.

End Tools.

(** * Proofs *)

(** ** The runtime fragment on examples *)

Section Runtime.

Example parseFloat_text : parseFloat_str (lit "abc") = NaN.
Proof. reflexivity. Qed.

Example parseFloat_empty : parseFloat_str [] = NaN.
Proof. reflexivity. Qed.

Example parseFloat_prefix : parseFloat_str (lit " 12.5kg") = Finite false 125 (-1).
Proof. reflexivity. Qed.

Example parseFloat_negative : parseFloat_str (lit "-5") = Finite true 5 0.
Proof. reflexivity. Qed.

Example parseFloat_exponent : parseFloat_str (lit "1.5e3") = Finite false 15 2.
Proof. reflexivity. Qed.

Example parseFloat_underflow : parseFloat_str (lit "1e-400") = Finite false 0 0.
Proof. vm_compute. reflexivity. Qed.

Example parseFloat_overflow : parseFloat_str (lit "-1e400") = Infinity true.
Proof. vm_compute. reflexivity. Qed.

Example parseFloat_undefined : parseFloat Undefined = Some NaN.
Proof. reflexivity. Qed.

Example parseInt_fraction : parseInt_str (lit "42.9") = Finite false 42 0.
Proof. reflexivity. Qed.

Example parseInt_hex : parseInt_str (lit "0x1F") = Finite false 31 0.
Proof. reflexivity. Qed.

Example parseInt_number : parseInt (Num (Finite false 1 21)) = Some (Finite false 1 0).
Proof. reflexivity. Qed.

Example number_to_string_fraction :
  number_to_string (Finite true 125 (-1)) = lit "-12.5".
Proof. reflexivity. Qed.

Example number_to_string_large :
  number_to_string (Finite false 1 21) = lit "1e+21".
Proof. reflexivity. Qed.

Example ToString_array :
  ToString (Arr [Num (Finite false 1 0); Null; Str (lit "a")]) = Some (lit "1,,a").
Proof. reflexivity. Qed.

Example split_keeps_empty_pieces :
  split comma (lit "1,,x,") = [lit "1"; []; lit "x"; []].
Proof. reflexivity. Qed.

Example trim_both_ends : trim (9 :: lit " a b " ++ [13])%N = lit "a b".
Proof. reflexivity. Qed.

Lemma num_or_zero_not_NaN x : num_or_zero x <> NaN.
Proof.
  unfold num_or_zero. destruct x as [|neg|neg m e]; cbn; try discriminate.
  destruct (m =? 0)%N; discriminate.
Qed.

Lemma num_or_zero_nonneg x : x = NaN \/ nonneg x -> nonneg (num_or_zero x).
Proof.
  unfold num_or_zero. intros [->|Hx]; [cbn; left; reflexivity|].
  destruct (num_truthy x); [assumption|cbn; left; reflexivity].
Qed.

(** What [parsed || 0] leaves is non-negative whenever the parse is
    [NaN] or non-negative. *)
Lemma defaulted_nonneg p x :
  defaulted (Some p) x -> p = NaN \/ nonneg p -> nonneg x.
Proof.
  intros [_ Hx] Hp. pose proof (num_or_zero_nonneg p Hp) as Hnn.
  unfold num_or_zero in Hnn. destruct (num_truthy p); subst x; assumption.
Qed.

(** A string that does not open with a minus sign, after its leading
    white space, never parses to a negative price. *)
Lemma parseFloat_str_nonneg s :
  (forall rest, trim_start s <> 45%N :: rest) ->
  parseFloat_str s = NaN \/ nonneg (parseFloat_str s).
Proof.
  intros Hsign. unfold parseFloat_str.
  assert (Hneg : fst (take_sign (trim_start s)) = false).
  { unfold take_sign. destruct (trim_start s) as [|c r]; [reflexivity|].
    destruct c as [|c]; [reflexivity|].
    destruct (decide (N.pos c = 45%N)) as [Hc|Hc].
    - exfalso. apply (Hsign r). rewrite Hc. reflexivity.
    - do 6 (destruct c as [c|c|]; try reflexivity). exfalso. apply Hc. reflexivity. }
  destruct (take_sign (trim_start s)) as [neg s1]. cbn in Hneg. subst neg.
  destruct (starts_with (lit "Infinity") s1); [right; reflexivity|].
  destruct (take_digits digit_of s1) as [ip s2].
  destruct (match s2 with
            | 46%N :: r =>
                let '(fp, r') := take_digits digit_of r in
                match ip, fp with
                | [], [] => ([], s2)
                | _, _ => (fp, r')
                end
            | _ => ([], s2)
            end) as [fp s3].
  assert (Hnum : forall m e, nonneg (to_number false m e)).
  { intros m e. unfold to_number.
    destruct (m =? 0)%N; [left; reflexivity|].
    destruct (underflows m e); [left; reflexivity|].
    destruct (overflows m e); [reflexivity|left; reflexivity]. }
  destruct ip, fp; [left; reflexivity|right; apply Hnum..].
Qed.

Lemma to_number_not_NaN neg m e : to_number neg m e <> NaN.
Proof.
  unfold to_number. destruct (m =? 0)%N; [discriminate|].
  destruct (underflows m e); [discriminate|].
  destruct (overflows m e); discriminate.
Qed.

(** [parseFloat] gives [NaN] exactly on the texts that do not open with
    a literal. *)
Lemma parseFloat_str_NaN s :
  parseFloat_str s = NaN <-> begins_number s = false.
Proof.
  unfold parseFloat_str, begins_number.
  destruct (take_sign (trim_start s)) as [neg s1].
  destruct (starts_with (lit "Infinity") s1); [split; discriminate|].
  cbn [orb].
  destruct s1 as [|c r]; [split; reflexivity|].
  cbn [take_digits].
  destruct (digit_of c) as [d|] eqn:Hc.
  - destruct (take_digits digit_of r) as [ds s2].
    destruct (match s2 with
              | 46%N :: r0 =>
                  let '(fp, r') := take_digits digit_of r0 in
                  match d :: ds, fp with
                  | [], [] => ([], s2)
                  | _, _ => (fp, r')
                  end
              | _ => ([], s2)
              end) as [fp s3].
    split; [|discriminate].
    intros H. exfalso. revert H. apply to_number_not_NaN.
  - destruct (N.eqb_spec c 46) as [->|Hne].
    + cbn [andb]. destruct r as [|d r']; [split; reflexivity|].
      cbn [take_digits]. destruct (digit_of d) as [dv|].
      * destruct (take_digits digit_of r') as [ds s2].
        split; [|discriminate].
        intros H. exfalso. revert H. apply to_number_not_NaN.
      * split; reflexivity.
    + cbn [andb]. destruct c as [|c]; [split; reflexivity|].
      do 6 (destruct c as [c|c|]; try (split; reflexivity)).
      exfalso. apply Hne. reflexivity.
Qed.

End Runtime.

(** ** The batch path *)

Section BatchPath.

Import DataProcessor Batch.

(** ** The store and notifier helpers *)


Lemma field_to_string record name :
  ToString (field record name) = Some (text_of (field record name)).
Proof. unfold text_of, field. destruct (record !! name); reflexivity. Qed.

Lemma putItem_file r w st :
  DynamoDB.putItem (FromFile r) w st =
  match dynamodb_put w (puts st) (FromFile r) with
  | None => (Returned tt, after_put (FromFile r) (DynamoInserted (Enriched.id r)) st)
  | Some e => (Thrown e, after_put (FromFile r) (DynamoInsertError e) st)
  end.
Proof.
  unfold DynamoDB.putItem, try_catch, bind, DynamoDB.put_call.
  destruct (dynamodb_put w (puts st) (FromFile r)); reflexivity.
Qed.

(** ** One row of the batch *)

(** What the body of the loop does on a non-blank line, case by case:
    the row is incomplete; the store accepts the record; the store
    refuses it. *)
Lemma process_row_cases headers key i line acc w st :
  let record := decode_row headers line in
  process_row headers key i line acc w st =
  if negb (truthy (field record (lit "id")))
     || negb (truthy (field record (lit "nome")))
  then (Returned (rejected acc), logged (RowIncomplete (i + 1)) st)
  else
    let item := enriched_record record key (clock w (clock_reads st))
                                (clock w (S (clock_reads st))) in
    match dynamodb_put w (puts st) (FromFile item) with
    | None =>
        (Returned (accepted acc item),
         logged (RowProcessed (i + 1) (Enriched.nome item))
           (after_put (FromFile item) (DynamoInserted (Enriched.id item))
              (ticked 2 st)))
    | Some e =>
        (Returned (rejected acc),
         logged (RowError (i + 1) (message e))
           (after_put (FromFile item) (DynamoInsertError e) (ticked 2 st)))
    end.
Proof.
  intros record. unfold process_row, try_catch. fold record.
  destruct (negb (truthy (field record (lit "id")))
            || negb (truthy (field record (lit "nome")))) eqn:Hvalid.
  - reflexivity.
  - unfold bind, to_string, float_or_zero, int_or_zero, parseFloat, parseInt.
    rewrite !field_to_string. cbn -[lit parseFloat_str parseInt_str field].
    rewrite putItem_file. cbn -[lit parseFloat_str parseInt_str field].
    unfold enriched_record.
    destruct (dynamodb_put w (puts st) _); reflexivity.
Qed.

(** A blank line is passed over: no counter moves, nothing is done. *)
Lemma process_lines_blank headers key i raw rest acc w st :
  trim raw = [] ->
  process_lines headers key i (raw :: rest) acc w st =
  process_lines headers key (S i) rest acc w st.
Proof. intros Hblank. cbn [process_lines]. rewrite Hblank. reflexivity. Qed.

Lemma process_lines_row headers key i raw rest acc w st :
  trim raw <> [] ->
  process_lines headers key i (raw :: rest) acc w st =
  match process_row headers key i (trim raw) acc w st with
  | (Returned acc', st') => process_lines headers key (S i) rest acc' w st'
  | (Thrown e, st') => (Thrown e, st')
  end.
Proof.
  intros Hrow. cbn [process_lines].
  destruct (trim raw) eqn:Hline; [congruence|]. reflexivity.
Qed.

(** The body of the loop never throws, adds one row outcome to the
    console, moves exactly one counter by one, and hands the store at
    most the enriched record of the line. *)
Lemma process_row_effect headers key i line acc w st :
  exists acc' st' added,
    process_row headers key i line acc w st = (Returned acc', st')
    /\ trace st' = added ++ trace st
    /\ rows_attempted added = 1%nat
    /\ published added = [] /\ reports added = []
    /\ processedCount acc' + errorCount acc'
       = processedCount acc + errorCount acc + 1
    /\ (forall it, In it (stored added) ->
          exists t1 t2,
            it = FromFile (enriched_record (decode_row headers line) key t1 t2)).
Proof.
  rewrite process_row_cases. cbv zeta.
  destruct (negb _ || negb _).
  - eexists _, _, [_]. split; [reflexivity|]. cbn.
    repeat split; try reflexivity; try lia. intros it [].
  - destruct (dynamodb_put _ _ _);
      (eexists _, _, [_; _; _]; split; [reflexivity|]; cbn;
       repeat split; try reflexivity; try lia;
       intros it [<-|[]]; eauto).
Qed.

(** ** Observations distribute over a trace *)

Lemma stored_app a b : stored (a ++ b) = stored a ++ stored b.
Proof.
  induction a as [|e a IH]; [reflexivity|].
  destruct e; cbn; rewrite ?IH; reflexivity.
Qed.

Lemma published_app a b : published (a ++ b) = published a ++ published b.
Proof.
  induction a as [|e a IH]; [reflexivity|].
  destruct e; cbn; rewrite ?IH; reflexivity.
Qed.

Lemma reports_app a b : reports (a ++ b) = reports a ++ reports b.
Proof.
  induction a as [|e a IH]; [reflexivity|].
  destruct e as [l| | |p]; cbn; rewrite ?IH; try reflexivity.
  - destruct l; cbn; rewrite ?IH; reflexivity.
  - destruct (Message p); cbn; rewrite ?IH; reflexivity.
Qed.

Lemma rows_attempted_app a b :
  rows_attempted (a ++ b) = (rows_attempted a + rows_attempted b)%nat.
Proof. unfold rows_attempted. rewrite filter_app, length_app. reflexivity. Qed.

(** ** The loop *)

(** The loop never throws; it attempts the non-blank lines and only
    them, each moving one counter by one; it publishes and reports
    nothing; and whatever it hands the store is the enriched record of
    one of its non-blank lines. *)
Lemma process_lines_effect headers key w rest :
  forall i acc st,
  exists acc' st' added,
    process_lines headers key i rest acc w st = (Returned acc', st')
    /\ trace st' = added ++ trace st
    /\ rows_attempted added = length (nonblank rest)
    /\ published added = [] /\ reports added = []
    /\ processedCount acc' + errorCount acc'
       = processedCount acc + errorCount acc + Z.of_nat (length (nonblank rest))
    /\ (forall it, In it (stored added) ->
          exists raw t1 t2,
            In raw rest /\ trim raw <> []
            /\ it = FromFile (enriched_record (decode_row headers (trim raw))
                                              key t1 t2)).
Proof.
  induction rest as [|raw rest IH]; intros i acc st.
  - exists acc, st, []. cbn. repeat split; try reflexivity; try lia.
  - destruct (decide (trim raw = [])) as [Hblank|Hrow].
    + rewrite process_lines_blank by assumption.
      destruct (IH (S i) acc st) as (acc' & st' & added & Hrun & Htr & Hn & Hp & Hr & Hsum & Hst).
      exists acc', st', added. unfold nonblank in *.
      rewrite filter_cons_False by (intros H; apply H; assumption).
      repeat split; try assumption.
      intros it Hit. destruct (Hst it Hit) as (raw' & t1 & t2 & Hin & Hnb & ->).
      exists raw', t1, t2. repeat split; [right|..]; assumption.
    + rewrite process_lines_row by assumption.
      destruct (process_row_effect headers key i (trim raw) acc w st)
        as (acc1 & st1 & added1 & Hrun1 & Htr1 & Hn1 & Hp1 & Hr1 & Hsum1 & Hst1).
      rewrite Hrun1.
      destruct (IH (S i) acc1 st1)
        as (acc' & st' & added & Hrun & Htr & Hn & Hp & Hr & Hsum & Hst).
      exists acc', st', (added ++ added1). unfold nonblank in *.
      rewrite filter_cons_True by assumption.
      rewrite rows_attempted_app, published_app, reports_app, Hn, Hn1, Hp, Hp1, Hr, Hr1.
      split; [assumption|]. split; [rewrite Htr, Htr1, app_assoc; reflexivity|].
      split; [cbn [length]; lia|]. split; [reflexivity|]. split; [reflexivity|].
      split; [cbn [length]; lia|].
      intros it Hit. rewrite stored_app in Hit. apply in_app_or in Hit.
      destruct Hit as [Hit|Hit].
      * destruct (Hst it Hit) as (raw' & t1 & t2 & Hin & Hnb & ->).
        exists raw', t1, t2. repeat split; [right|..]; assumption.
      * destruct (Hst1 it Hit) as (t1 & t2 & ->).
        exists raw, t1, t2. repeat split; [left; reflexivity|assumption].
Qed.


(** ** After the loop *)

Lemma finish_cases bucket key lines context acc w st :
  finish bucket key lines context acc w st =
  match topic w with
  | None =>
      (Returned (summary key lines acc), logged (done_line lines acc) (ticked 1 st))
  | Some arn =>
      let p := completion_params arn bucket key lines context acc
                                 (clock w (clock_reads st)) in
      match sns_publish w (publishes st) p with
      | inr message_id =>
          (Returned (summary key lines acc),
           logged (done_line lines acc)
             (after_publish p (SnsPublished message_id) (ticked 1 st)))
      | inl e => (Thrown e, after_publish p (SnsPublishError e) (ticked 1 st))
      end
  end.
Proof.
  unfold finish, bind, topic_if_set, ask, now.
  destruct (topic w) as [arn|]; [|reflexivity].
  unfold SNS.publishMessage, bind, try_catch, SNS.publish_call.
  cbn -[lit number_to_string]. unfold completion_params.
  destruct (sns_publish w (publishes st) _); reflexivity.
Qed.

Lemma on_fatal_cases error w st :
  on_fatal error w st =
  (Returned (failed error),
   match topic w with
   | None => logged (FatalError error) st
   | Some arn =>
       let p := failure_params arn error (clock w (clock_reads st)) in
       let st1 := ticked 1 (logged (FatalError error) st) in
       match sns_publish w (publishes st) p with
       | inr message_id => after_publish p (SnsPublished message_id) st1
       | inl e =>
           logged (FailureNotificationError e)
                  (after_publish p (SnsPublishError e) st1)
       end
   end).
Proof.
  unfold on_fatal, bind, try_catch, topic_if_set, ask, now, console, emit.
  cbn -[lit]. destruct (topic w) as [arn|]; [|reflexivity].
  unfold SNS.publishMessage, bind, try_catch, SNS.publish_call.
  cbn -[lit]. unfold failure_params.
  destruct (sns_publish w (publishes st) _); reflexivity.
Qed.

(** The handler on a batch that could be read: the loop, then steps 6
    and 7, the [catch] taking over if one of them throws. *)
Lemma handler_read event context key csv w st :
  decodeURIComponent w (plus_to_space (object_key event)) = inr key ->
  s3_getObject w (bucket_name event) key = inr csv ->
  handler event context w st =
  match process_lines (headers_of (lines_of csv)) key 1 (tl (lines_of csv))
                      (mkCounters [] 0 0) w (at_loop_start event key csv st) with
  | (Returned acc, st1) =>
      match finish (bucket_name event) key (lines_of csv) context acc w st1 with
      | (Returned r, st2) => (Returned r, st2)
      | (Thrown e, st2) => on_fatal e w st2
      end
  | (Thrown e, st1) => on_fatal e w st1
  end.
Proof.
  intros Hkey Hcsv.
  unfold handler, bind, try_catch, ask, console, emit, S3.getObject,
    S3.getObject_call, bind, try_catch, ask, console, emit.
  cbn -[lit lines_of headers_of process_lines finish on_fatal].
  rewrite Hkey. cbn -[lit lines_of headers_of process_lines finish on_fatal].
  rewrite Hcsv. cbn -[lit lines_of headers_of process_lines finish on_fatal].
  unfold at_loop_start, logged. cbn -[lit lines_of headers_of process_lines finish on_fatal].
  destruct (process_lines _ _ _ _ _ _ _) as [[acc|e] st1]; reflexivity.
Qed.

Lemma split_cons sep s : exists first rest, split sep s = first :: rest.
Proof.
  induction s as [|c s IH]; cbn; [eauto|].
  destruct (c =? sep)%N; [eauto|].
  destruct IH as (first & rest & ->). eauto.
Qed.

(** [lines.length - 1] is the number of lines after the header. *)
Lemma total_of_lines csv :
  total_of (lines_of csv) = Z.of_nat (length (tl (lines_of csv))).
Proof.
  unfold total_of, lines_of.
  destruct (split_cons newline (trim csv)) as (first & rest & ->).
  cbn [tl length]. lia.
Qed.

Lemma rows_attempted_cons e tr :
  rows_attempted (e :: tr)
  = ((if is_row_outcome e then 1 else 0) + rows_attempted tr)%nat.
Proof.
  unfold rows_attempted. destruct (is_row_outcome e) eqn:He.
  - rewrite filter_cons_True by assumption. reflexivity.
  - rewrite filter_cons_False by congruence. reflexivity.
Qed.

(** Rewrites an observation of a trace into the observations of its
    parts. *)
Ltac observe :=
  repeat (rewrite ?rows_attempted_cons, ?rows_attempted_app, ?stored_app,
            ?published_app, ?reports_app;
          cbn [trace logged after_publish after_put ticked at_loop_start
               is_row_outcome stored published reports initial Message
               completion_params failure_params app fst snd]).

(** What a batch that could be read leaves behind, whatever the store
    and the notifier answer: the loop's additions [added] on top of the
    start of the loop, then the completion report, and either the
    summary, or the failure result when the notifier refused. *)
Lemma handler_outcome event context key csv w :
  decodeURIComponent w (plus_to_space (object_key event)) = inr key ->
  s3_getObject w (bucket_name event) key = inr csv ->
  let lines := lines_of csv in
  exists acc added resp after st',
    handler event context w initial = (Returned resp, st')
    /\ trace st' = after ++ added ++ trace (at_loop_start event key csv initial)
    /\ rows_attempted added = length (nonblank (tl lines))
    /\ reports added = []
    /\ processedCount acc + errorCount acc = Z.of_nat (length (nonblank (tl lines)))
    /\ (forall it, In it (stored added) ->
          exists raw t1 t2,
            In raw (tl lines) /\ trim raw <> []
            /\ it = FromFile (enriched_record
                                (decode_row (headers_of lines) (trim raw)) key t1 t2))
    /\ rows_attempted after = 0%nat /\ stored after = []
    /\ reports after <> []
    /\ (forall r, In r (reports after) ->
          r = (processedCount acc, errorCount acc, total_of lines))
    /\ (resp = summary key lines acc
           /\ (topic w = None
               \/ exists arn n t message_id,
                    topic w = Some arn
                    /\ sns_publish w n (completion_params arn (bucket_name event)
                                          key lines context acc t) = inr message_id)
        \/ exists arn n t e,
             topic w = Some arn
             /\ sns_publish w n (completion_params arn (bucket_name event) key
                                                   lines context acc t) = inl e
             /\ resp = failed e).
Proof.
  intros Hkey Hcsv lines. rewrite (handler_read _ _ _ _ _ _ Hkey Hcsv).
  fold lines.
  destruct (process_lines_effect (headers_of lines) key w (tl lines) 1
              (mkCounters [] 0 0) (at_loop_start event key csv initial))
    as (acc & st1 & added & Hrun & Htr & Hn & Hp & Hr & Hsum & Hst).
  rewrite Hrun, finish_cases. cbn [processedCount errorCount] in Hsum.
  exists acc, added.
  destruct (topic w) as [arn|] eqn:Htopic.
  - cbv zeta.
    destruct (sns_publish w (publishes st1) _) as [e|message_id] eqn:Hsns.
    + rewrite on_fatal_cases, Htopic. cbv zeta.
      cbn [publishes clock_reads after_publish ticked].
      destruct (sns_publish w (S (publishes st1)) _) as [e'|message_id'].
      * eexists _, [_; _; _; _; _; _; _; _], _. split; [reflexivity|].
        cbn [trace logged after_publish ticked app]. rewrite Htr.
        split; [reflexivity|]. observe.
        repeat split; try assumption; try reflexivity; try lia;
          try discriminate; try (intros r [<-|[]]; reflexivity).
        right. eauto 10.
      * eexists _, [_; _; _; _; _; _; _], _. split; [reflexivity|].
        cbn [trace logged after_publish ticked app]. rewrite Htr.
        split; [reflexivity|]. observe.
        repeat split; try assumption; try reflexivity; try lia;
          try discriminate; try (intros r [<-|[]]; reflexivity).
        right. eauto 10.
    + eexists _, [_; _; _; _], _. split; [reflexivity|].
      cbn [trace logged after_publish ticked app]. rewrite Htr.
      split; [reflexivity|]. observe.
      repeat split; try assumption; try reflexivity; try lia;
        try discriminate; try (intros r [<-|[<-|[]]]; reflexivity).
      left. split; [reflexivity|]. right. eauto 10.
  - eexists _, [_], _. split; [reflexivity|].
    cbn [trace logged after_publish ticked app]. rewrite Htr.
    split; [reflexivity|]. observe.
    repeat split; try assumption; try reflexivity; try lia;
      try discriminate; try (intros r [<-|[]]; reflexivity).
    left. split; [reflexivity|]. left. reflexivity.
Qed.

(** ** Properties of the batch path *)




(** C5.  A data row in which both the [id] field and the [nome] field
    are missing or empty is rejected as incomplete: the store is never
    called for it, [errorCount] goes up by one, a warning is logged, and
    the loop goes on with the next row. *)
Theorem row_without_identity_rejected w st headers key i raw rest acc :
  trim raw <> [] ->
  truthy (field (decode_row headers (trim raw)) (lit "id")) = false ->
  truthy (field (decode_row headers (trim raw)) (lit "nome")) = false ->
  process_lines headers key i (raw :: rest) acc w st
  = process_lines headers key (S i) rest
      (mkCounters (records acc) (processedCount acc) (errorCount acc + 1)) w
      (mkSt (Console (RowIncomplete (i + 1)) :: trace st)
            (puts st) (publishes st) (clock_reads st) (uuids st)).
Proof.
  intros Hrow Hid Hnome.
  rewrite process_lines_row by assumption.
  rewrite process_row_cases. cbv zeta. rewrite Hid, Hnome. reflexivity.
Qed.

Lemma row_without_identity_rejected_witness :
  let w := Sample.world Sample.csv_mixed Sample.never false in
  let headers := headers_of (lines_of Sample.csv_mixed) in
  process_lines headers (lit "k") 2 [lit ",,Papelaria,1.00,5"]
                (mkCounters [] 1 0) w initial
  = (Returned (mkCounters [] 1 1),
     mkSt [Console (RowIncomplete 3)] 0 0 0 0).
Proof.
  intros w headers.
  rewrite (row_without_identity_rejected w initial headers (lit "k") 2%nat
             (lit ",,Papelaria,1.00,5") [] (mkCounters [] 1 0)).
  - reflexivity.
  - vm_compute. discriminate.
  - vm_compute. reflexivity.
  - vm_compute. reflexivity.
Defined.

(** C6, counterexample.  The row [1,Caneta,Papelaria,12abc,100] has a
    usable [id] and [nome] and a [preco] field, [12abc], that is not a
    number; it reaches the store with price [12], not [0]. *)
Lemma numeric_prefix_reaches_store :
  let record := decode_row (headers_of (lines_of csv_prefixed))
                  (lit "1,Caneta,Papelaria,12abc,100") in
  let run := handler Sample.upload Sample.context
               (Sample.world csv_prefixed Sample.never false) initial in
  (truthy (field record (lit "id")) = true
   /\ truthy (field record (lit "nome")) = true
   /\ field record (lit "preco") = Str (lit "12abc")
   /\ not_a_decimal (lit "12abc") = true)
  /\ map item_preco (stored (trace (snd run))) = [Finite false 12 0]
  /\ ~ (forall it, In it (stored (trace (snd run))) -> item_preco it = zero).
Proof.
  intros record run.
  assert (Hstored : map item_preco (stored (trace (snd run)))
                    = [Finite false 12 0]) by (vm_compute; reflexivity).
  split; [repeat split; vm_compute; reflexivity|].
  split; [exact Hstored|].
  intros Hall.
  destruct (stored (trace (snd run))) as [|it rest]; [discriminate|].
  specialize (Hall it (or_introl eq_refl)).
  cbn [map] in Hstored. rewrite Hall in Hstored. discriminate.
Qed.

(** C6, amended.  A data row with usable [id] and [nome] fields is never
    rejected for its [preco] field, whatever that field holds: the
    enriched record is handed to the store, and the row is counted as
    processed when the store accepts it (as failed only when the store
    itself refuses).  The price of the record is what
    [parseFloat(preco) || 0] leaves: [0] when the text does not open
    with a number (the parse is [NaN]), the number its first characters
    spell otherwise. *)
Theorem price_never_rejects_row w st headers key i raw rest acc :
  trim raw <> [] ->
  truthy (field (decode_row headers (trim raw)) (lit "id")) = true ->
  truthy (field (decode_row headers (trim raw)) (lit "nome")) = true ->
  let preco := field (decode_row headers (trim raw)) (lit "preco") in
  let item := enriched_record (decode_row headers (trim raw)) key
                (clock w (clock_reads st)) (clock w (S (clock_reads st))) in
  defaulted (parseFloat preco) (Enriched.preco item)
  /\ (begins_number (text_of preco) = false <-> parseFloat preco = Some NaN)
  /\ (begins_number (text_of preco) = false -> Enriched.preco item = zero)
  /\ process_lines headers key i (raw :: rest) acc w st
     = match dynamodb_put w (puts st) (FromFile item) with
       | None =>
           process_lines headers key (S i) rest
             (mkCounters (records acc ++ [item]) (processedCount acc + 1)
                         (errorCount acc)) w
             (mkSt (Console (RowProcessed (i + 1) (Enriched.nome item))
                    :: Console (DynamoInserted (Enriched.id item))
                    :: DynamoPut (FromFile item) :: trace st)
                   (S (puts st)) (publishes st) (2 + clock_reads st) (uuids st))
       | Some e =>
           process_lines headers key (S i) rest
             (mkCounters (records acc) (processedCount acc) (errorCount acc + 1)) w
             (mkSt (Console (RowError (i + 1) (message e))
                    :: Console (DynamoInsertError e)
                    :: DynamoPut (FromFile item) :: trace st)
                   (S (puts st)) (publishes st) (2 + clock_reads st) (uuids st))
       end.
Proof.
  intros Hrow Hid Hnome preco item.
  assert (Hparse : parseFloat preco = Some (parseFloat_str (text_of preco))).
  { unfold parseFloat, preco. rewrite field_to_string. reflexivity. }
  split; [|split; [|split]].
  - rewrite Hparse. unfold item, enriched_record. cbn [Enriched.preco].
    fold preco. unfold defaulted, num_or_zero.
    destruct (num_truthy (parseFloat_str (text_of preco))) eqn:Hp;
      split; try reflexivity; try discriminate.
    destruct (parseFloat_str (text_of preco)); cbn in Hp; congruence.
  - rewrite Hparse, <- parseFloat_str_NaN. split; congruence.
  - intros Hnone. apply parseFloat_str_NaN in Hnone.
    unfold item, enriched_record. cbn [Enriched.preco].
    fold preco. rewrite Hnone. reflexivity.
  - rewrite process_lines_row by assumption.
    rewrite process_row_cases. cbv zeta. rewrite Hid, Hnome.
    cbn [negb orb]. fold item.
    destruct (dynamodb_put w (puts st) (FromFile item)); reflexivity.
Qed.

Lemma price_never_rejects_row_witness :
  let w := Sample.world csv_prefixed Sample.never false in
  let headers := headers_of (lines_of csv_prefixed) in
  defaulted (Some (Finite false 12 0))
    (Enriched.preco
       (enriched_record (decode_row headers (lit "1,Caneta,Papelaria,12abc,100"))
          (lit "k") (clock w 0) (clock w 1))).
Proof.
  intros w headers.
  refine (proj1 (price_never_rejects_row w initial headers (lit "k")
                   1%nat (lit "1,Caneta,Papelaria,12abc,100") []
                   (mkCounters [] 0 0) _ _ _)).
  - vm_compute. discriminate.
  - vm_compute. reflexivity.
  - vm_compute. reflexivity.
Defined.

(** When the store refuses a row, the exception is caught, the row is
    counted as failed and the loop goes on with the next row. *)
Lemma store_failure_counted w st headers key i raw rest acc e :
  trim raw <> [] ->
  truthy (field (decode_row headers (trim raw)) (lit "id")) = true ->
  truthy (field (decode_row headers (trim raw)) (lit "nome")) = true ->
  let item := enriched_record (decode_row headers (trim raw)) key
                (clock w (clock_reads st)) (clock w (S (clock_reads st))) in
  dynamodb_put w (puts st) (FromFile item) = Some e ->
  process_lines headers key i (raw :: rest) acc w st
  = process_lines headers key (S i) rest (rejected acc) w
      (logged (RowError (i + 1) (message e))
         (after_put (FromFile item) (DynamoInsertError e) (ticked 2 st))).
Proof.
  intros Hrow Hid Hnome item Hput.
  rewrite process_lines_row by assumption.
  rewrite process_row_cases. cbv zeta. rewrite Hid, Hnome.
  cbn [negb orb]. fold item. rewrite Hput. reflexivity.
Qed.

(** A batch that could be read ends in the success result whenever the
    notification step does not throw, whatever the store answered. *)
Lemma batch_succeeds_unless_notifier_throws w event context key csv :
  decodeURIComponent w (plus_to_space (object_key event)) = inr key ->
  s3_getObject w (bucket_name event) key = inr csv ->
  topic w = None \/ (forall n p, exists message_id, sns_publish w n p = inr message_id) ->
  exists acc st',
    handler event context w initial
    = (Returned (summary key (lines_of csv) acc), st').
Proof.
  intros Hkey Hcsv Hquiet.
  destruct (handler_outcome event context key csv w Hkey Hcsv)
    as (acc & added & resp & after & st' & Hrun & _ & _ & _ & _ & _ & _ & _ & _ & _ & Hresp).
  exists acc, st'. rewrite Hrun.
  destruct Hresp as [[-> _]|(arn & n & t & e & Htopic & Hsns & _)]; [reflexivity|].
  destruct Hquiet as [Hnone|Hok]; [congruence|].
  destruct (Hok n (completion_params arn (bucket_name event) key (lines_of csv)
                                     context acc t)) as [message_id Hid].
  congruence.
Qed.

(** A batch that could be read ends in the failure result whenever a
    topic is configured and the notifier refuses, whatever the rows
    did. *)
Lemma batch_fails_when_notifier_refuses w event context key csv arn :
  decodeURIComponent w (plus_to_space (object_key event)) = inr key ->
  s3_getObject w (bucket_name event) key = inr csv ->
  topic w = Some arn ->
  (forall n p, exists e, sns_publish w n p = inl e) ->
  exists e st',
    handler event context w initial = (Returned (failed e), st')
    /\ statusCode (failed e) = 500.
Proof.
  intros Hkey Hcsv Htopic Hrefuses.
  destruct (handler_outcome event context key csv w Hkey Hcsv)
    as (acc & added & resp & after & st' & Hrun & _ & _ & _ & _ & _ & _ & _ & _ & _ & Hresp).
  destruct Hresp as [[_ [Hnone|(arn' & n & t & message_id & _ & Hsns)]]
                    |(arn' & n & t & e & _ & _ & ->)].
  - congruence.
  - destruct (Hrefuses n (completion_params arn' (bucket_name event) key
                            (lines_of csv) context acc t)) as [e He].
    congruence.
  - exists e, st'. split; [assumption|reflexivity].
Qed.

Lemma length_nonblank rest :
  length rest
  = (length (nonblank rest) + length (filter (fun raw => trim raw = []) rest))%nat.
Proof.
  unfold nonblank. induction rest as [|raw rest IH]; [reflexivity|].
  destruct (decide (trim raw = [])) as [Hblank|Hrow].
  - rewrite (filter_cons_True (fun raw => trim raw = [])) by assumption.
    rewrite filter_cons_False by (intros H; apply H; assumption).
    cbn [length]. lia.
  - rewrite filter_cons_True by assumption.
    rewrite (filter_cons_False (fun raw => trim raw = [])) by assumption.
    cbn [length]. lia.
Qed.

(** The total every report carries is the number of rows attempted plus
    the number of blank lines after the header. *)
Lemma total_includes_blank_lines w event context key csv :
  decodeURIComponent w (plus_to_space (object_key event)) = inr key ->
  s3_getObject w (bucket_name event) key = inr csv ->
  let run := handler event context w initial in
  total_of (lines_of csv)
  = Z.of_nat (rows_attempted (trace (snd run)))
    + Z.of_nat (length (filter (fun raw => trim raw = []) (tl (lines_of csv)))).
Proof.
  intros Hkey Hcsv run.
  destruct (handler_outcome event context key csv w Hkey Hcsv)
    as (acc & added & resp & after & st' & Hrun & Htr & Hn & _ & _ & _ & Hn' & _).
  subst run. rewrite Hrun. cbn [snd]. rewrite Htr. observe.
  rewrite Hn, Hn', total_of_lines, (length_nonblank (tl (lines_of csv))).
  cbn. lia.
Qed.

End BatchPath.

(** ** The API path *)

Section ApiPath.

Import CreateRecord Api.



Lemma parse_body_interpreted w st event v :
  interpreted w event v ->
  parse_body event w st = (Returned (Some v), st).
Proof.
  unfold interpreted, parse_body, try_catch, bind, ask, of_sum.
  destruct (body event); intros ->; reflexivity.
Qed.

Lemma post_is_not_options : is_string (Str (lit "POST")) (lit "OPTIONS") = false.
Proof. vm_compute. reflexivity. Qed.

Lemma post_is_post : is_string (Str (lit "POST")) (lit "POST") = true.
Proof. vm_compute. reflexivity. Qed.

(** A POST whose body could be interpreted goes through [create]; the
    outer [catch] turns whatever [create] throws into the 500 response. *)
Lemma handler_post event context w st v :
  httpMethod event = Str (lit "POST") ->
  interpreted w event v ->
  handler event context w st =
  match create event context v w (logged (ApiEvent event) (logged ApiStarted st)) with
  | (Returned r, st') => (Returned r, st')
  | (Thrown e, st') => (Returned (internal_error e), logged (CreateRecordError e) st')
  end.
Proof.
  intros Hpost Hbody. unfold handler.
  rewrite Hpost, post_is_not_options, post_is_post.
  unfold bind, try_catch, console, emit. cbn -[lit create parse_body].
  rewrite (parse_body_interpreted _ _ _ _ Hbody).
  unfold logged. cbn -[lit create].
  destruct (create _ _ _ _ _) as [[r|e] st']; reflexivity.
Qed.

Lemma putItem_api r w st :
  DynamoDB.putItem (FromApi r) w st =
  match dynamodb_put w (puts st) (FromApi r) with
  | Some e => (Thrown e, after_put (FromApi r) (DynamoInsertError e) st)
  | None =>
      match ToString (ApiItem.id r) with
      | Some text => (Returned tt, after_put (FromApi r) (DynamoInserted text) st)
      | None =>
          (Thrown type_error, after_put (FromApi r) (DynamoInsertError type_error) st)
      end
  end.
Proof.
  unfold DynamoDB.putItem, try_catch, bind, DynamoDB.put_call, to_string.
  cbn [item_id].
  destruct (dynamodb_put w (puts st) (FromApi r)); [reflexivity|].
  destruct (ToString (ApiItem.id r)); reflexivity.
Qed.

(** [publishMessage] on attributes that all convert to strings: one
    call of [sns.publish], whose rejection is logged and thrown again. *)
Lemma publishMessage_cases arn msg subject attributes texts w st :
  Forall2 (fun kv kt => fst kt = fst kv /\ ToString (snd kv) = Some (snd kt))
          attributes texts ->
  SNS.publishMessage arn msg subject attributes w st =
  let p := mkPublish arn msg subject texts in
  match sns_publish w (publishes st) p with
  | inr message_id => (Returned tt, after_publish p (SnsPublished message_id) st)
  | inl e => (Thrown e, after_publish p (SnsPublishError e) st)
  end.
Proof.
  intros Hconv. unfold SNS.publishMessage.
  assert (Hattrs : for_each (fun kv => (s <- to_string (snd kv) ;; ret (fst kv, s))%js)
                     attributes w st = (Returned texts, st)).
  { induction Hconv as [|[k v] [k' t] attributes texts [Hk Hv] _ IH]; [reflexivity|].
    cbn [for_each fst snd] in *. unfold bind, to_string, ret in *.
    rewrite Hv, IH. subst k'. reflexivity. }
  unfold bind at 1. rewrite Hattrs.
  unfold try_catch, bind, SNS.publish_call, console, emit, after_publish.
  cbn -[lit]. destruct (sns_publish w (publishes st) _); reflexivity.
Qed.

(** [create], step by step, on a body that has properties to read. *)
Lemma create_cases event context props w st :
  let v := Obj props in
  let nome := get_opt v (lit "nome") in
  let id := get_opt v (lit "id") in
  create event context v w st =
  if negb (truthy nome) then (Returned validation_error, st)
  else
    let itemId := if truthy id then id else Str (uuid_source w (uuids st)) in
    let st1 := mkSt (trace st) (puts st) (publishes st) (S (clock_reads st))
                    (if truthy id then uuids st else S (uuids st)) in
    match parseFloat (get_opt v (lit "preco")) with
    | None => (Thrown type_error, st1)
    | Some p =>
        match parseInt (get_opt v (lit "estoque")) with
        | None => (Thrown type_error, st1)
        | Some q =>
            let item := new_item event context v itemId (num_or_zero p) (num_or_zero q)
                          (clock w (clock_reads st)) (clock w (S (clock_reads st))) in
            let st2 := logged (CreatingRecord item) (ticked 1 st1) in
            match dynamodb_put w (puts st) (FromApi item) with
            | Some e => (Thrown e, after_put (FromApi item) (DynamoInsertError e) st2)
            | None =>
                match ToString itemId with
                | None =>
                    (Thrown type_error,
                     after_put (FromApi item) (DynamoInsertError type_error) st2)
                | Some text =>
                    let st3 := after_put (FromApi item) (DynamoInserted text) st2 in
                    match topic w with
                    | None => (Returned (created item), st3)
                    | Some arn =>
                        let p := creation_params arn item text in
                        match sns_publish w (publishes st) p with
                        | inr message_id =>
                            (Returned (created item),
                             after_publish p (SnsPublished message_id) st3)
                        | inl e => (Thrown e, after_publish p (SnsPublishError e) st3)
                        end
                    end
                end
            end
        end
    end.
Proof.
  intros v nome id. unfold create, read. cbn [get v]. fold v.
  change (default Undefined (own_property props ?n)) with (get_opt v n).
  fold nome. fold id. unfold bind at 1. unfold ret at 1.
  destruct (truthy nome) eqn:Hnome; cbn [negb]; [|reflexivity].
  unfold bind, ret, now, uuidv4, float_or_zero, int_or_zero, console, emit,
    topic_if_set, ask, throw.
  destruct (truthy id) eqn:Hid;
    (destruct (parseFloat (get_opt v (lit "preco"))) as [p|]; [|reflexivity];
     destruct (parseInt (get_opt v (lit "estoque"))) as [q|]; [|reflexivity];
     cbn -[lit ToString SNS.publishMessage]; rewrite putItem_api;
     cbn -[lit ToString SNS.publishMessage];
     unfold new_item, after_put, logged, ticked;
     cbn -[lit ToString SNS.publishMessage];
     destruct (dynamodb_put w (puts st) _); [reflexivity|];
     match goal with
     | |- context [ToString ?x] => destruct (ToString x) as [text|] eqn:Htext
     end;
     [|reflexivity];
     destruct (topic w) as [arn|]; [|reflexivity];
     cbn -[lit ToString SNS.publishMessage];
     rewrite (publishMessage_cases _ _ _ _
                [(lit "event_type", lit "api_creation"); (lit "record_id", text)])
       by (repeat (constructor; [split; [reflexivity|first [exact Htext|reflexivity]]|]);
           constructor);
     unfold creation_params, after_publish; cbn -[lit ToString];
     destruct (sns_publish w (publishes st) _); reflexivity).
Qed.

Lemma is_string_true v text : is_string v text = true -> v = Str text.
Proof.
  destruct v; cbn; try discriminate.
  intros H. apply bool_decide_eq_true in H. congruence.
Qed.

(** Step 2 never throws and touches nothing: either the body could not
    be parsed, or it was interpreted. *)
Lemma parse_body_cases w st event :
  parse_body event w st = (Returned None, st)
  \/ exists v, interpreted w event v /\ parse_body event w st = (Returned (Some v), st).
Proof.
  unfold interpreted, parse_body, try_catch, bind, ask, of_sum.
  destruct (body event) eqn:Hbody; try (right; eexists; split; reflexivity).
  destruct (JSON_parse w s) as [e|v]; [left; reflexivity|].
  right. exists v. split; reflexivity.
Qed.

Lemma handler_invalid_json event context w st :
  httpMethod event = Str (lit "POST") ->
  parse_body event w (logged (ApiEvent event) (logged ApiStarted st))
  = (Returned None, logged (ApiEvent event) (logged ApiStarted st)) ->
  handler event context w st
  = (Returned invalid_json, logged (ApiEvent event) (logged ApiStarted st)).
Proof.
  intros Hpost Hparse. unfold handler.
  rewrite Hpost, post_is_not_options, post_is_post.
  unfold bind, try_catch, console, emit. cbn -[lit create parse_body].
  unfold logged in Hparse. cbn -[lit parse_body] in Hparse.
  rewrite Hparse. reflexivity.
Qed.

(** A value without properties to read: [create] stops before the
    store, at the [TypeError] or at the validation error. *)
Lemma create_without_properties event context v w st :
  (forall props, v <> Obj props) ->
  exists o, create event context v w st = (o, st)
            /\ (v = Null \/ v = Undefined -> exists e, o = Thrown e /\ class e = TypeError)
            /\ (v <> Null -> v <> Undefined -> o = Returned validation_error).
Proof.
  intros Hv. unfold create, read, bind, throw, ret.
  destruct v; cbn -[lit];
    try (eexists; split; [reflexivity|]; split;
         [intros [|]; try discriminate; eexists; split; reflexivity
         |intros; congruence]).
  exfalso. eapply Hv. reflexivity.
Qed.

Lemma defaulted_num_or_zero p : defaulted (Some p) (num_or_zero p).
Proof.
  unfold defaulted, num_or_zero.
  destruct (num_truthy p) eqn:Hp; split; try reflexivity; try discriminate.
  destruct p; cbn in Hp; congruence.
Qed.

Lemma to_number_integral neg m : integral (to_number neg m 0).
Proof.
  unfold to_number.
  destruct (m =? 0)%N; [reflexivity|].
  destruct (underflows m 0); [reflexivity|].
  destruct (overflows m 0); reflexivity.
Qed.

Lemma parseInt_str_integral s : parseInt_str s = NaN \/ integral (parseInt_str s).
Proof.
  unfold parseInt_str.
  destruct (take_sign (trim_start s)) as [neg s1].
  destruct (match s1 with
            | 48%N :: x :: r =>
                if (x =? 120)%N || (x =? 88)%N then (16%N, hex_digit_of, r)
                else (10%N, digit_of, s1)
            | _ => (10%N, digit_of, s1)
            end) as [[radix digit] s2].
  destruct (take_digits digit s2) as [[|d ds] rest]; [left; reflexivity|].
  right. apply to_number_integral.
Qed.

Lemma num_or_zero_integral x : x = NaN \/ integral x -> integral (num_or_zero x).
Proof.
  unfold num_or_zero. intros [->|Hx]; [reflexivity|].
  destruct (num_truthy x); [assumption|reflexivity].
Qed.

Lemma parseInt_integral v q : parseInt v = Some q -> integral (num_or_zero q).
Proof.
  unfold parseInt. destruct (ToString v) as [s|]; [|discriminate].
  cbn. intros [= <-]. apply num_or_zero_integral, parseInt_str_integral.
Qed.

(** What the API handler hands the store: nothing, or the one item of
    step 4, built from the interpreted body. *)
Lemma handler_stores event context w st :
  let run := handler event context w st in
  stored (trace (snd run)) = stored (trace st)
  \/ exists v itemId p q t1 t2,
       interpreted w event v
       /\ parseFloat (get_opt v (lit "preco")) = Some p
       /\ parseInt (get_opt v (lit "estoque")) = Some q
       /\ stored (trace (snd run))
          = FromApi (new_item event context v itemId (num_or_zero p)
                              (num_or_zero q) t1 t2) :: stored (trace st).
Proof.
  intros run. subst run.
  destruct (is_string (httpMethod event) (lit "OPTIONS")) eqn:Hoptions.
  { left. unfold handler. rewrite Hoptions. reflexivity. }
  destruct (is_string (httpMethod event) (lit "POST")) eqn:Hpost.
  2:{ left. unfold handler. rewrite Hoptions, Hpost. reflexivity. }
  apply is_string_true in Hpost.
  destruct (parse_body_cases w (logged (ApiEvent event) (logged ApiStarted st)) event)
    as [Hnone|(v & Hv & _)].
  { left. rewrite (handler_invalid_json _ _ _ _ Hpost Hnone). reflexivity. }
  rewrite (handler_post _ _ _ _ _ Hpost Hv).
  destruct v as [| | | | | |props];
    try (match goal with
         | |- context [create _ _ ?v _ ?st0] =>
             destruct (create_without_properties event context v w st0
                         ltac:(intros; discriminate)) as (o & Ho & _)
         end;
         rewrite Ho; left; destruct o; reflexivity).
  rewrite create_cases. cbv zeta.
  destruct (negb _); [left; reflexivity|].
  destruct (parseFloat _) as [p|] eqn:Hp; [|left; reflexivity].
  destruct (parseInt _) as [q|] eqn:Hq; [|left; reflexivity].
  right. exists (Obj props). do 5 eexists. split; [assumption|].
  split; [eassumption|]. split; [eassumption|].
  cbn [puts logged publishes].
  destruct (dynamodb_put w _ _); [reflexivity|].
  destruct (ToString _); [|reflexivity].
  destruct (topic w); [|reflexivity].
  cbv zeta. destruct (sns_publish w _ _); reflexivity.
Qed.

(** ** Properties of the API path *)

(** C8.  A POST whose body is interpreted as a key-value structure with
    no usable [nome] (absent, or present with a falsy value) gets the
    400 response whose error kind is [Validation Error], and the store
    is not called. *)
Theorem missing_nome_is_validation_error w st event context props :
  httpMethod event = Str (lit "POST") ->
  interpreted w event (Obj props) ->
  truthy (get_opt (Obj props) (lit "nome")) = false ->
  let run := handler event context w st in
  fst run = Returned validation_error
  /\ statusCode validation_error = 400
  /\ (exists text,
        response_body validation_error = ErrorBody (lit "Validation Error") text)
  /\ stored (trace (snd run)) = stored (trace st)
  /\ puts (snd run) = puts st.
Proof.
  intros Hpost Hbody Hnome run. subst run.
  rewrite (handler_post _ _ _ _ _ Hpost Hbody), create_cases. cbv zeta.
  rewrite Hnome. cbn [negb fst snd].
  split; [reflexivity|]. split; [reflexivity|]. split; [eexists; reflexivity|].
  split; reflexivity.
Qed.

Lemma missing_nome_is_validation_error_witness :
  fst (handler (Sample.post (Obj [(lit "categoria", Str (lit "Papelaria"))]))
         Sample.context (Sample.world [] Sample.never false) initial)
  = Returned validation_error.
Proof.
  refine (proj1 (missing_nome_is_validation_error
                   (Sample.world [] Sample.never false) initial
                   (Sample.post (Obj [(lit "categoria", Str (lit "Papelaria"))]))
                   Sample.context [(lit "categoria", Str (lit "Papelaria"))]
                   _ _ _)).
  - reflexivity.
  - reflexivity.
  - vm_compute. reflexivity.
Defined.

(** C10.  A POST whose body is absent ([null] or [undefined]) passes the
    JSON-parse guard untouched; reading [nome] of it throws a
    [TypeError], which the outermost [catch] turns into the 500
    response, not a 400; the store is not called. *)
Theorem absent_body_is_internal_error w st event context :
  httpMethod event = Str (lit "POST") ->
  body event = Null \/ body event = Undefined ->
  let run := handler event context w st in
  parse_body event w st = (Returned (Some (body event)), st)
  /\ (exists e,
        class e = TypeError
        /\ fst run = Returned (internal_error e)
        /\ statusCode (internal_error e) = 500)
  /\ status run = Some 500
  /\ stored (trace (snd run)) = stored (trace st).
Proof.
  intros Hpost Habsent run.
  assert (Hbody : interpreted w event (body event)).
  { unfold interpreted. destruct Habsent as [->| ->]; reflexivity. }
  split; [apply parse_body_interpreted; assumption|].
  subst run. unfold status. rewrite (handler_post _ _ _ _ _ Hpost Hbody).
  destruct (create_without_properties event context (body event) w
              (logged (ApiEvent event) (logged ApiStarted st)))
    as (o & Ho & Hthrown & _).
  { intros props. destruct Habsent as [->| ->]; discriminate. }
  destruct (Hthrown ltac:(assumption)) as (e & -> & Hclass).
  rewrite Ho. cbn [fst snd].
  split; [exists e; split; [assumption|split; reflexivity]|].
  split; reflexivity.
Qed.

Lemma absent_body_is_internal_error_witness :
  status (handler (Sample.post Null) Sample.context
            (Sample.world [] Sample.never false) initial)
  = Some 500.
Proof.
  refine (proj1 (proj2 (proj2 (absent_body_is_internal_error
                   (Sample.world [] Sample.never false) initial
                   (Sample.post Null) Sample.context _ _)))).
  - reflexivity.
  - left. reflexivity.
Defined.

(** When a topic is configured and the notifier refuses, a POST whose
    item the store accepted is answered with the 500 response all the
    same, the item staying stored. *)
Lemma stored_item_answered_500 w st event context props p q text arn e :
  httpMethod event = Str (lit "POST") ->
  interpreted w event (Obj props) ->
  truthy (get_opt (Obj props) (lit "nome")) = true ->
  parseFloat (get_opt (Obj props) (lit "preco")) = Some p ->
  parseInt (get_opt (Obj props) (lit "estoque")) = Some q ->
  let id := get_opt (Obj props) (lit "id") in
  let itemId := if truthy id then id else Str (uuid_source w (uuids st)) in
  let item := new_item event context (Obj props) itemId
                (num_or_zero p) (num_or_zero q)
                (clock w (clock_reads st)) (clock w (S (clock_reads st))) in
  dynamodb_put w (puts st) (FromApi item) = None ->
  ToString itemId = Some text ->
  topic w = Some arn ->
  sns_publish w (publishes st) (creation_params arn item text) = inl e ->
  let run := handler event context w st in
  fst run = Returned (internal_error e)
  /\ status run = Some 500
  /\ stored (trace (snd run)) = FromApi item :: stored (trace st).
Proof.
  intros Hpost Hbody Hnome Hp Hq id itemId item Hput Htext Htopic Hsns run.
  subst run. unfold status.
  rewrite (handler_post _ _ _ _ _ Hpost Hbody), create_cases. cbv zeta.
  rewrite Hnome, Hp, Hq. cbn [negb logged puts uuids clock_reads publishes].
  fold id. fold itemId. fold item.
  rewrite Hput, Htext, Htopic, Hsns. cbn [fst snd].
  split; [reflexivity|]. split; reflexivity.
Qed.

End ApiPath.

Section Outcomes.

Import CreateRecord Api.

(** ** Numbers handed to the store *)

(** C3, counterexample.  The row [1,Caneta,Papelaria,-5,-3] reaches the
    store with price [-5] and stock [-3]. *)
Lemma negative_numbers_reach_store :
  let run := DataProcessor.handler Sample.upload Sample.context
               (Sample.world Sample.csv_negative Sample.never false) initial in
  ~ (forall it, In it (stored (trace (snd run))) ->
       nonneg (item_preco it) /\ nonneg (item_estoque it)).
Proof.
  intros run Hall.
  assert (Hin : In (FromFile
                      (Batch.enriched_record
                         (DataProcessor.decode_row
                            (DataProcessor.headers_of
                               (DataProcessor.lines_of Sample.csv_negative))
                            (lit "1,Caneta,Papelaria,-5,-3"))
                         (lit "input/produtos.csv") 1700000000000 1700000000001))
                   (stored (trace (snd run)))).
  { vm_compute. left. reflexivity. }
  destruct (Hall _ Hin) as [Hpreco _].
  vm_compute in Hpreco. destruct Hpreco; discriminate.
Qed.

(** C3, amended.  Every record handed to the store, by the batch
    handler on a batch that could be read and by the API handler, has a
    price and a stock that are what [parseFloat(raw) || 0] and
    [parseInt(raw) || 0] leave of the raw field: never [NaN], [0] when
    the raw field is absent, unparseable or zero, and otherwise the
    parsed number with its sign; the stock is an integer or an
    infinity. *)
Theorem stored_numbers_defaulted :
  (forall w event context key csv it,
     decodeURIComponent w (DataProcessor.plus_to_space (object_key event)) = inr key ->
     s3_getObject w (bucket_name event) key = inr csv ->
     In it (stored (trace (snd (DataProcessor.handler event context w initial)))) ->
     exists raw,
       In raw (tl (DataProcessor.lines_of csv))
       /\ let record := DataProcessor.decode_row
                          (DataProcessor.headers_of (DataProcessor.lines_of csv))
                          (trim raw) in
          defaulted (parseFloat (DataProcessor.field record (lit "preco")))
                    (item_preco it)
          /\ defaulted (parseInt (DataProcessor.field record (lit "estoque")))
                       (item_estoque it)
          /\ integral (item_estoque it))
  /\ (forall w event context it,
        In it (stored (trace (snd (CreateRecord.handler event context w initial)))) ->
        exists v,
          interpreted w event v
          /\ defaulted (parseFloat (get_opt v (lit "preco"))) (item_preco it)
          /\ defaulted (parseInt (get_opt v (lit "estoque"))) (item_estoque it)
          /\ integral (item_estoque it)).
Proof.
  split.
  - intros w event context key csv it Hkey Hcsv Hin.
    destruct (handler_outcome event context key csv w Hkey Hcsv)
      as (acc & added & resp & after & st' & Hrun & Htr & _ & _ & _ & Hst
          & _ & Hafter & _).
    rewrite Hrun in Hin. cbn [snd] in Hin. rewrite Htr in Hin.
    rewrite !stored_app, Hafter in Hin. cbn in Hin. rewrite app_nil_r in Hin.
    destruct (Hst it Hin) as (raw & t1 & t2 & Hraw & _ & ->).
    exists raw. split; [assumption|]. cbv zeta.
    unfold parseFloat, parseInt. rewrite !field_to_string.
    cbn [item_preco item_estoque Batch.enriched_record Enriched.preco
         Enriched.estoque].
    split; [apply defaulted_num_or_zero|].
    split; [apply defaulted_num_or_zero|].
    apply num_or_zero_integral, parseInt_str_integral.
  - intros w event context it Hin.
    destruct (handler_stores event context w initial)
      as [Hsame|(v & itemId & p & q & t1 & t2 & Hv & Hp & Hq & Hst)].
    + rewrite Hsame in Hin. destruct Hin.
    + rewrite Hst in Hin. destruct Hin as [<-|[]].
      exists v. split; [assumption|].
      cbn [item_preco item_estoque new_item ApiItem.preco ApiItem.estoque].
      rewrite Hp, Hq.
      split; [apply defaulted_num_or_zero|].
      split; [apply defaulted_num_or_zero|].
      eapply parseInt_integral; eassumption.
Qed.

Lemma stored_numbers_defaulted_witness :
  exists raw,
    In raw (tl (DataProcessor.lines_of Sample.csv_negative))
    /\ let record := DataProcessor.decode_row
                       (DataProcessor.headers_of
                          (DataProcessor.lines_of Sample.csv_negative))
                       (trim raw) in
       defaulted (parseFloat (DataProcessor.field record (lit "preco")))
                 (Finite true 5 0)
       /\ defaulted (parseInt (DataProcessor.field record (lit "estoque")))
                    (Finite true 3 0)
       /\ integral (Finite true 3 0).
Proof.
  refine (proj1 stored_numbers_defaulted
            (Sample.world Sample.csv_negative Sample.never false)
            Sample.upload Sample.context (lit "input/produtos.csv")
            Sample.csv_negative
            (FromFile
               (Batch.enriched_record
                  (DataProcessor.decode_row
                     (DataProcessor.headers_of
                        (DataProcessor.lines_of Sample.csv_negative))
                     (lit "1,Caneta,Papelaria,-5,-3"))
                  (lit "input/produtos.csv") 1700000000000 1700000000001))
            _ _ _).
  - reflexivity.
  - reflexivity.
  - vm_compute. left. reflexivity.
Defined.

(** ** Where the notification step decides the outcome *)

(** C1, on the code.  With a topic configured and a notifier that
    refuses, the batch handler ends in its 500 result instead of the 200
    it gives when the notifier accepts; and the API handler answers 500
    although the record was handed to the store and accepted, where it
    answers 201 when the notifier accepts.  The refusal is logged by
    [publishMessage] and thrown again; the handlers do not catch it
    around the call. *)
Theorem notifier_failure_changes_outcome :
  let accepting := Sample.world Sample.csv_one_row Sample.never false in
  let refusing := Sample.world Sample.csv_one_row Sample.never true in
  let batch w := DataProcessor.handler Sample.upload Sample.context w initial in
  let api w := CreateRecord.handler (Sample.post Sample.widget) Sample.context
                 w initial in
  Batch.status (batch accepting) = Some 200
  /\ Batch.status (batch refusing) = Some 500
  /\ reports (trace (snd (batch refusing))) = [(1, 0, 1)]
  /\ Api.status (api accepting) = Some 201
  /\ Api.status (api refusing) = Some 500
  /\ length (stored (trace (snd (api refusing)))) = 1%nat
  /\ In (SnsPublishError (Sample.failure "topic unavailable"))
        (console_lines (trace (snd (api refusing)))).
Proof.
  vm_compute. repeat split; try reflexivity. right. left. reflexivity.
Qed.

(** C2, on the code.  A CSV with a blank line between the header and
    its only data row: one row is attempted, one is processed, none
    fails, and [total_records] is [2]. *)
Theorem blank_line_counted_in_total :
  let run := DataProcessor.handler Sample.upload Sample.context
               (Sample.world Sample.csv_with_blank Sample.never false) initial in
  rows_attempted (trace (snd run)) = 1%nat
  /\ fst run
     = Returned
         (DataProcessor.mkResponse 200
            (DataProcessor.Summary
               (lit "Processamento conclu" ++ 237%N :: lit "do com sucesso")
               (lit "input/produtos.csv") 1 0 2 (1, 2))).
Proof. vm_compute. split; reflexivity. Qed.

(** C7, on the code.  The store refuses the only row: the row is
    counted as failed and the batch goes on to its report; the result is
    200 when the notifier accepts, and 500 when it refuses. *)
Theorem store_failure_then_notifier_failure :
  let accepting := Sample.world Sample.csv_one_row Sample.always false in
  let refusing := Sample.world Sample.csv_one_row Sample.always true in
  let batch w := DataProcessor.handler Sample.upload Sample.context w initial in
  reports (trace (snd (batch refusing))) = [(0, 1, 1)]
  /\ Batch.status (batch refusing) = Some 500
  /\ Batch.status (batch accepting) = Some 200.
Proof. vm_compute. repeat split; reflexivity. Qed.

(** A POST that carries a usable [nome] and no usable [id] is given the
    next identifier of the generator; when the store accepts the item
    and the notification step does not throw, the answer is the 201
    response carrying that identifier. *)
Lemma post_without_id_created w st event context props p q :
  httpMethod event = Str (lit "POST") ->
  interpreted w event (Obj props) ->
  truthy (get_opt (Obj props) (lit "nome")) = true ->
  truthy (get_opt (Obj props) (lit "id")) = false ->
  parseFloat (get_opt (Obj props) (lit "preco")) = Some p ->
  parseInt (get_opt (Obj props) (lit "estoque")) = Some q ->
  let item := new_item event context (Obj props) (Str (uuid_source w (uuids st)))
                (num_or_zero p) (num_or_zero q)
                (clock w (clock_reads st)) (clock w (S (clock_reads st))) in
  dynamodb_put w (puts st) (FromApi item) = None ->
  topic w = None \/ (forall n params, exists message_id,
                       sns_publish w n params = inr message_id) ->
  exists st',
    handler event context w st = (Returned (created item), st')
    /\ uuids st' = S (uuids st)
    /\ stored (trace st') = FromApi item :: stored (trace st).
Proof.
  intros Hpost Hbody Hnome Hid Hp Hq item Hput Hquiet.
  rewrite (handler_post _ _ _ _ _ Hpost Hbody), create_cases. cbv zeta.
  rewrite Hnome, Hid, Hp, Hq. cbn [negb logged puts uuids clock_reads publishes].
  fold item. rewrite Hput. cbn [ToString].
  destruct (topic w) as [arn|] eqn:Htopic.
  - destruct Hquiet as [Hnone|Hok]; [discriminate|].
    destruct (Hok (publishes st) (creation_params arn item (uuid_source w (uuids st))))
      as [message_id ->].
    eexists. split; [reflexivity|]. split; reflexivity.
  - eexists. split; [reflexivity|]. split; reflexivity.
Qed.

(** Two such calls in a row get different identifiers, as long as the
    generator does not repeat itself. *)
Lemma successive_ids_differ w st :
  (forall m n, uuid_source w m = uuid_source w n -> m = n) ->
  Str (uuid_source w (uuids st)) <> Str (uuid_source w (S (uuids st))).
Proof.
  intros Hinj Heq. injection Heq as Heq. apply Hinj in Heq. lia.
Qed.

(** C9, on the code.  The request body [{"nome":"Widget"}]: an
    identifier is generated and the item is stored under it; the answer
    is 201 with that identifier when the notifier accepts, and 500 when
    the notifier refuses, the item being stored all the same. *)
Theorem created_record_answered_500 :
  let accepting := Sample.world Sample.csv_one_row Sample.never false in
  let refusing := Sample.world Sample.csv_one_row Sample.never true in
  let api w := CreateRecord.handler (Sample.post (Str Sample.widget_json))
                 Sample.context w initial in
  map item_id (stored (trace (snd (api accepting)))) = [Str (lit "uuid-0")]
  /\ (exists text t item,
        fst (api accepting)
        = Returned (mkResponse 201 cors_headers
                      (Created text (Str (lit "uuid-0")) t item)))
  /\ map item_id (stored (trace (snd (api refusing)))) = [Str (lit "uuid-0")]
  /\ fst (api refusing)
     = Returned (internal_error (Sample.failure "topic unavailable"))
  /\ Api.status (api refusing) = Some 500.
Proof.
  vm_compute. repeat split; try reflexivity. do 3 eexists. reflexivity.
Qed.

End Outcomes.

(** * Further properties *)

(** ** The API handler, request by request *)

Section ApiRequests.

Import CreateRecord Api.

(** An [OPTIONS] request is answered with the 200 preflight response
    whatever its body, and nothing is parsed, stored or announced. *)
Theorem preflight_ignores_body w st event context :
  httpMethod event = Str (lit "OPTIONS") ->
  handler event context w st
  = (Returned (mkResponse 200 cors_headers
                 (Preflight (lit "CORS preflight successful"))),
     logged (ApiEvent event) (logged ApiStarted st)).
Proof.
  intros Hmethod. unfold handler. rewrite Hmethod.
  replace (is_string (Str (lit "OPTIONS")) (lit "OPTIONS")) with true
    by (vm_compute; reflexivity).
  reflexivity.
Qed.

Lemma preflight_ignores_body_witness :
  Api.status (handler (mkApiEvent (Str (lit "OPTIONS")) (Str (lit "not json")) Undefined)
                Sample.context (Sample.world [] Sample.always true) initial)
  = Some 200.
Proof.
  unfold Api.status.
  rewrite (preflight_ignores_body (Sample.world [] Sample.always true) initial
             (mkApiEvent (Str (lit "OPTIONS")) (Str (lit "not json")) Undefined)
             Sample.context eq_refl).
  reflexivity.
Defined.

Lemma handler_other_method w st event context :
  is_string (httpMethod event) (lit "OPTIONS") = false ->
  is_string (httpMethod event) (lit "POST") = false ->
  handler event context w st
  = (Returned method_not_allowed,
     logged (ApiEvent event) (logged ApiStarted st)).
Proof.
  intros Hoptions Hpost. unfold handler. rewrite Hoptions, Hpost. reflexivity.
Qed.

(** A method other than [OPTIONS] and [POST] is answered with 405
    before the body is looked at: nothing is parsed, stored or
    announced. *)
Theorem other_methods_refused_unread w st event context :
  is_string (httpMethod event) (lit "OPTIONS") = false ->
  is_string (httpMethod event) (lit "POST") = false ->
  let run := handler event context w st in
  fst run = Returned method_not_allowed
  /\ statusCode method_not_allowed = 405
  /\ trace (snd run) = Console (ApiEvent event) :: Console ApiStarted :: trace st
  /\ uuids (snd run) = uuids st /\ clock_reads (snd run) = clock_reads st.
Proof.
  intros Hoptions Hpost run. subst run.
  unfold handler. rewrite Hoptions, Hpost. cbn [fst snd].
  repeat split; reflexivity.
Qed.

Lemma other_methods_refused_unread_witness :
  Api.status (handler (mkApiEvent (Str (lit "GET")) Null Undefined)
                Sample.context (Sample.world [] Sample.never false) initial)
  = Some 405.
Proof.
  unfold Api.status.
  rewrite (proj1 (other_methods_refused_unread
                    (Sample.world [] Sample.never false) initial
                    (mkApiEvent (Str (lit "GET")) Null Undefined) Sample.context
                    eq_refl eq_refl)).
  reflexivity.
Defined.

(** A string body that [JSON.parse] rejects is answered with the 400
    [Invalid JSON] response; nothing is stored or announced. *)
Theorem unparsable_body_is_invalid_json w st event context text e :
  httpMethod event = Str (lit "POST") ->
  body event = Str text ->
  JSON_parse w text = inl e ->
  handler event context w st
  = (Returned invalid_json, logged (ApiEvent event) (logged ApiStarted st)).
Proof.
  intros Hpost Hbody Hparse. apply handler_invalid_json; [assumption|].
  unfold parse_body, try_catch, bind, ask, of_sum. rewrite Hbody, Hparse.
  reflexivity.
Qed.

Lemma unparsable_body_is_invalid_json_witness :
  Api.status (handler (Sample.post (Str (lit "{nome:"))) Sample.context
                (Sample.world [] Sample.never false) initial)
  = Some 400.
Proof.
  unfold Api.status.
  rewrite (unparsable_body_is_invalid_json (Sample.world [] Sample.never false)
             initial (Sample.post (Str (lit "{nome:"))) Sample.context
             (lit "{nome:") (mkError SyntaxError (lit "Unexpected token"))).
  - reflexivity.
  - reflexivity.
  - reflexivity.
  - vm_compute. reflexivity.
Defined.

(** Whatever the request, the world and the state, the handler answers;
    nothing it calls can make it throw. *)
Theorem api_handler_always_answers w st event context :
  exists resp st',
    handler event context w st = (Returned resp, st')
    /\ In (statusCode resp) [200; 201; 400; 405; 500].
Proof.
  destruct (is_string (httpMethod event) (lit "OPTIONS")) eqn:Hoptions.
  { unfold handler. rewrite Hoptions. do 2 eexists. split; [reflexivity|].
    cbn. tauto. }
  destruct (is_string (httpMethod event) (lit "POST")) eqn:Hpost.
  2:{ rewrite handler_other_method by assumption.
      do 2 eexists. split; [reflexivity|]. cbn. tauto. }
  apply is_string_true in Hpost.
  destruct (parse_body_cases w (logged (ApiEvent event) (logged ApiStarted st)) event)
    as [Hnone|(v & Hv & _)].
  { rewrite (handler_invalid_json _ _ _ _ Hpost Hnone).
    do 2 eexists. split; [reflexivity|]. cbn. tauto. }
  rewrite (handler_post _ _ _ _ _ Hpost Hv).
  destruct v as [| | | | | |props];
    try (match goal with
         | |- context [create _ _ ?v _ ?st0] =>
             destruct (create_without_properties event context v w st0
                         ltac:(intros; discriminate)) as (o & Ho & Hthrown & Hreturned)
         end;
         rewrite Ho; destruct o as [r|e];
         [ first [ rewrite (Hreturned ltac:(discriminate) ltac:(discriminate)) in *
                 | destruct (Hthrown ltac:(tauto)) as (e' & He' & _); discriminate ]
         | ];
         do 2 eexists; (split; [reflexivity|]); cbn; tauto).
  rewrite create_cases. cbv zeta.
  destruct (negb _); [do 2 eexists; split; [reflexivity|]; cbn; tauto|].
  destruct (parseFloat _); [|do 2 eexists; split; [reflexivity|]; cbn; tauto].
  destruct (parseInt _); [|do 2 eexists; split; [reflexivity|]; cbn; tauto].
  destruct (dynamodb_put w _ _); [do 2 eexists; split; [reflexivity|]; cbn; tauto|].
  destruct (ToString _); [|do 2 eexists; split; [reflexivity|]; cbn; tauto].
  destruct (topic w); [|do 2 eexists; split; [reflexivity|]; cbn; tauto].
  cbv zeta. destruct (sns_publish w _ _);
    do 2 eexists; (split; [reflexivity|]); cbn; tauto.
Qed.

(** Everything a call can leave behind: nothing in the store and
    nothing announced, or the one item of step 4, announced at most
    once and only if the store accepted it. *)
Lemma api_ledger w st event context :
  let run := handler event context w st in
  stored (trace (snd run)) = stored (trace st)
  /\ published (trace (snd run)) = published (trace st)
  \/ exists props p q,
       interpreted w event (Obj props)
       /\ truthy (get_opt (Obj props) (lit "nome")) = true
       /\ parseFloat (get_opt (Obj props) (lit "preco")) = Some p
       /\ parseInt (get_opt (Obj props) (lit "estoque")) = Some q
       /\ let id := get_opt (Obj props) (lit "id") in
          let item :=
            new_item event context (Obj props)
              (if truthy id then id else Str (uuid_source w (uuids st)))
              (num_or_zero p) (num_or_zero q)
              (clock w (clock_reads st)) (clock w (S (clock_reads st))) in
          stored (trace (snd run)) = FromApi item :: stored (trace st)
          /\ (published (trace (snd run)) = published (trace st)
              \/ dynamodb_put w (puts st) (FromApi item) = None
                 /\ published (trace (snd run))
                    = RecordCreated (ApiItem.id item) (ApiItem.nome item)
                                    (ApiItem.created_at item)
                      :: published (trace st)).
Proof.
  intros run. subst run.
  destruct (is_string (httpMethod event) (lit "OPTIONS")) eqn:Hoptions.
  { left. unfold handler. rewrite Hoptions. repeat split; reflexivity. }
  destruct (is_string (httpMethod event) (lit "POST")) eqn:Hpost.
  2:{ left. rewrite handler_other_method by assumption.
      repeat split; reflexivity. }
  apply is_string_true in Hpost.
  destruct (parse_body_cases w (logged (ApiEvent event) (logged ApiStarted st)) event)
    as [Hnone|(v & Hv & _)].
  { left. rewrite (handler_invalid_json _ _ _ _ Hpost Hnone).
    repeat split; reflexivity. }
  rewrite (handler_post _ _ _ _ _ Hpost Hv).
  destruct v as [| | | | | |props];
    try (match goal with
         | |- context [create _ _ ?v _ ?st0] =>
             destruct (create_without_properties event context v w st0
                         ltac:(intros; discriminate)) as (o & Ho & _)
         end;
         rewrite Ho; left; destruct o; repeat split; reflexivity).
  rewrite create_cases. cbv zeta.
  destruct (truthy (get_opt (Obj props) (lit "nome"))) eqn:Hnome;
    [|left; repeat split; reflexivity].
  cbn [negb].
  destruct (parseFloat _) as [p|] eqn:Hp; [|left; split; reflexivity].
  destruct (parseInt _) as [q|] eqn:Hq; [|left; split; reflexivity].
  right. exists props, p, q. do 4 (split; [assumption|]). cbv zeta.
  cbn [puts logged publishes uuids clock_reads].
  destruct (dynamodb_put w _ _) eqn:Hput;
    [split; [reflexivity|left; reflexivity]|].
  destruct (ToString _); [|split; [reflexivity|left; reflexivity]].
  destruct (topic w); [|split; [reflexivity|left; reflexivity]].
  cbv zeta. destruct (sns_publish w _ _);
    (split; [reflexivity|right; split; [reflexivity|reflexivity]]).
Qed.

(** A creation is announced only for an item the store accepted, and at
    most once; the store is called at most once. *)
Theorem announced_only_if_stored w st event context :
  let run := handler event context w st in
  (published (trace (snd run)) = published (trace st)
   \/ exists item,
        dynamodb_put w (puts st) (FromApi item) = None
        /\ stored (trace (snd run)) = FromApi item :: stored (trace st)
        /\ published (trace (snd run))
           = RecordCreated (ApiItem.id item) (ApiItem.nome item)
                           (ApiItem.created_at item)
             :: published (trace st))
  /\ (length (stored (trace (snd run))) <= S (length (stored (trace st))))%nat.
Proof.
  intros run. destruct (api_ledger w st event context)
    as [[Hs Hp]|(props & p & q & _ & _ & _ & _ & Hs & Hp)]; fold run in Hs, Hp.
  - split; [left; assumption|]. rewrite Hs. lia.
  - cbv zeta in Hs, Hp. split.
    + destruct Hp as [Hp|[Hput Hp]]; [left; assumption|].
      right. eexists. split; [exact Hput|]. split; [exact Hs|exact Hp].
    + rewrite Hs. cbn. lia.
Qed.

(** Every item the API handler stores has a usable [nome], a usable
    [categoria], the source [API] and a usable [created_by]; its
    [request_id] is that of the invocation. *)
Theorem api_items_are_complete w st event context :
  let run := handler event context w st in
  stored (trace (snd run)) = stored (trace st)
  \/ exists r,
       stored (trace (snd run)) = FromApi r :: stored (trace st)
       /\ truthy (ApiItem.nome r) = true
       /\ truthy (ApiItem.categoria r) = true
       /\ ApiItem.source r = lit "API"
       /\ truthy (ApiItem.created_by r) = true
       /\ ApiItem.request_id r = requestId context.
Proof.
  intros run. destruct (api_ledger w st event context)
    as [[Hs _]|(props & p & q & _ & Hnome & _ & _ & Hs & _)]; fold run in Hs.
  - left. assumption.
  - right. eexists. split; [exact Hs|]. cbn [new_item ApiItem.nome
      ApiItem.categoria ApiItem.source ApiItem.created_by ApiItem.request_id].
    split; [assumption|].
    split; [unfold or_else; destruct (truthy (get_opt (Obj props) (lit "categoria"))) eqn:H;
            [assumption|reflexivity]|].
    split; [reflexivity|].
    split; [|reflexivity].
    unfold or_else.
    destruct (truthy (get_opt (get_opt (requestContext event) (lit "identity"))
                              (lit "sourceIp"))) eqn:H; [assumption|reflexivity].
Qed.

(** A request that brings a usable [id] keeps it as it is, of whatever
    type, and the identifier generator is not consulted. *)
Theorem supplied_id_is_kept w st event context props :
  httpMethod event = Str (lit "POST") ->
  interpreted w event (Obj props) ->
  truthy (get_opt (Obj props) (lit "nome")) = true ->
  truthy (get_opt (Obj props) (lit "id")) = true ->
  let run := handler event context w st in
  uuids (snd run) = uuids st
  /\ forall p q,
       parseFloat (get_opt (Obj props) (lit "preco")) = Some p ->
       parseInt (get_opt (Obj props) (lit "estoque")) = Some q ->
       exists r,
         stored (trace (snd run)) = FromApi r :: stored (trace st)
         /\ ApiItem.id r = get_opt (Obj props) (lit "id").
Proof.
  intros Hpost Hbody Hnome Hid run. subst run.
  rewrite (handler_post _ _ _ _ _ Hpost Hbody), create_cases. cbv zeta.
  rewrite Hnome, Hid.
  cbn [negb logged puts uuids clock_reads publishes].
  split.
  - destruct (parseFloat _); [|reflexivity].
    destruct (parseInt _); [|reflexivity].
    destruct (dynamodb_put w _ _); [reflexivity|].
    destruct (ToString _); [|reflexivity].
    destruct (topic w); [|reflexivity].
    destruct (sns_publish w _ _); reflexivity.
  - intros p q -> ->.
    exists (new_item event context (Obj props) (get_opt (Obj props) (lit "id"))
              (num_or_zero p) (num_or_zero q)
              (clock w (clock_reads st)) (clock w (S (clock_reads st)))).
    split; [|reflexivity].
    destruct (dynamodb_put w _ _); [reflexivity|].
    destruct (ToString _); [|reflexivity].
    destruct (topic w); [|reflexivity].
    destruct (sns_publish w _ _); reflexivity.
Qed.

Lemma supplied_id_is_kept_witness :
  uuids (snd (handler
                (Sample.post (Obj [(lit "nome", Str (lit "Widget"));
                                   (lit "id", Num (Finite false 7 0))]))
                Sample.context (Sample.world [] Sample.never false) initial))
  = 0%nat.
Proof.
  refine (proj1 (supplied_id_is_kept (Sample.world [] Sample.never false) initial
                   (Sample.post (Obj [(lit "nome", Str (lit "Widget"));
                                      (lit "id", Num (Finite false 7 0))]))
                   Sample.context
                   [(lit "nome", Str (lit "Widget"));
                    (lit "id", Num (Finite false 7 0))] _ _ _ _)).
  - reflexivity.
  - reflexivity.
  - vm_compute. reflexivity.
  - vm_compute. reflexivity.
Defined.

(** When the store refuses the item, the answer is the 500 response
    with the store's own message, and nothing is announced. *)
Theorem refused_item_is_not_announced w st event context props p q e :
  httpMethod event = Str (lit "POST") ->
  interpreted w event (Obj props) ->
  truthy (get_opt (Obj props) (lit "nome")) = true ->
  parseFloat (get_opt (Obj props) (lit "preco")) = Some p ->
  parseInt (get_opt (Obj props) (lit "estoque")) = Some q ->
  let id := get_opt (Obj props) (lit "id") in
  let item := new_item event context (Obj props)
                (if truthy id then id else Str (uuid_source w (uuids st)))
                (num_or_zero p) (num_or_zero q)
                (clock w (clock_reads st)) (clock w (S (clock_reads st))) in
  dynamodb_put w (puts st) (FromApi item) = Some e ->
  let run := handler event context w st in
  fst run = Returned (mkResponse 500 cors_headers
                        (ErrorBody (lit "Internal Server Error") (message e)))
  /\ published (trace (snd run)) = published (trace st)
  /\ publishes (snd run) = publishes st.
Proof.
  intros Hpost Hbody Hnome Hp Hq id item Hput run. subst run.
  rewrite (handler_post _ _ _ _ _ Hpost Hbody), create_cases. cbv zeta.
  rewrite Hnome, Hp, Hq. cbn [negb logged puts uuids clock_reads publishes].
  fold id. destruct (truthy id) eqn:Hid; fold item; rewrite Hput;
    repeat split; reflexivity.
Qed.

Lemma refused_item_is_not_announced_witness :
  Api.status (handler (Sample.post Sample.widget) Sample.context
                (Sample.world [] Sample.always false) initial)
  = Some 500.
Proof.
  pose proof (refused_item_is_not_announced
                (Sample.world [] Sample.always false) initial
                (Sample.post Sample.widget) Sample.context
                [(lit "nome", Str (lit "Widget"))] NaN NaN
                (Sample.failure "store unavailable")
                eq_refl eq_refl eq_refl eq_refl eq_refl eq_refl) as [H _].
  unfold Api.status. rewrite H. reflexivity.
Defined.

End ApiRequests.

(** ** The batch handler, row by row *)

Section BatchLedger.

Import DataProcessor Batch.

Lemma count_app kind a b : count kind (a ++ b) = (count kind a + count kind b)%nat.
Proof. unfold count. rewrite filter_app, length_app. reflexivity. Qed.

Lemma count_cons kind e tr :
  count kind (e :: tr) = ((if kind e then 1 else 0) + count kind tr)%nat.
Proof.
  unfold count. destruct (kind e) eqn:He.
  - rewrite filter_cons_True by assumption. reflexivity.
  - rewrite filter_cons_False by congruence. reflexivity.
Qed.

(** What one row adds to the trace and to the counters, by the answer of
    the store. *)
Lemma process_row_ledger headers key i line acc w st :
  let valid := truthy (field (decode_row headers line) (lit "id"))
               && truthy (field (decode_row headers line) (lit "nome")) in
  exists acc' st' added,
    process_row headers key i line acc w st = (Returned acc', st')
    /\ trace st' = added ++ trace st
    /\ length (stored added) = (if valid then 1 else 0)%nat
    /\ count is_incomplete added = (if valid then 0 else 1)%nat
    /\ (count is_inserted added + count is_refused added
        = length (stored added))%nat
    /\ processedCount acc'
       = processedCount acc + Z.of_nat (count is_inserted added)
    /\ errorCount acc'
       = errorCount acc
         + Z.of_nat (count is_incomplete added + count is_refused added)
    /\ (count is_s3_read added = 0%nat /\ reports added = [])
    /\ (forall it, In it (stored added) ->
          valid = true
          /\ exists t1 t2,
               it = FromFile (enriched_record (decode_row headers line) key t1 t2)).
Proof.
  intros valid. rewrite process_row_cases. cbv zeta.
  replace (negb (truthy (field (decode_row headers line) (lit "id")))
           || negb (truthy (field (decode_row headers line) (lit "nome"))))
    with (negb valid)
    by (unfold valid; destruct (truthy _), (truthy _); reflexivity).
  destruct valid.
  - cbn [negb].
    destruct (dynamodb_put _ _ _);
      (eexists _, _, [_; _; _]; split; [reflexivity|]; split; [reflexivity|];
       rewrite !count_cons; cbn;
       repeat split; try reflexivity; try lia;
       try match goal with
           | H : _ = _ \/ False |- _ => destruct H as [<-|[]]; eauto
           end).
  - eexists _, _, [_]. split; [reflexivity|]. split; [reflexivity|].
    rewrite !count_cons. cbn.
    repeat split; try reflexivity; try lia; try contradiction.
Qed.

(** The same for the whole loop: the store is called once for each
    non-blank line that passes the validation, and the two counters
    count what the console shows. *)
Lemma process_lines_ledger headers key w rest :
  forall i acc st,
  exists acc' st' added,
    process_lines headers key i rest acc w st = (Returned acc', st')
    /\ trace st' = added ++ trace st
    /\ length (stored added)
       = length (filter (fun raw => complete headers raw = true) (nonblank rest))
    /\ (count is_incomplete added + length (stored added)
        = length (nonblank rest))%nat
    /\ (count is_inserted added + count is_refused added
        = length (stored added))%nat
    /\ processedCount acc'
       = processedCount acc + Z.of_nat (count is_inserted added)
    /\ errorCount acc'
       = errorCount acc
         + Z.of_nat (count is_incomplete added + count is_refused added)
    /\ (count is_s3_read added = 0%nat /\ reports added = [])
    /\ (forall it, In it (stored added) ->
          exists raw t1 t2,
            In raw rest /\ complete headers raw = true
            /\ it = FromFile (enriched_record (decode_row headers (trim raw))
                                              key t1 t2)).
Proof.
  induction rest as [|raw rest IH]; intros i acc st.
  - exists acc, st, []. cbn. repeat split; try reflexivity; try lia.
  - destruct (decide (trim raw = [])) as [Hblank|Hrow].
    + rewrite process_lines_blank by assumption.
      destruct (IH (S i) acc st)
        as (acc' & st' & added & Hrun & Htr & Hs & Hi & Hc & Hp & He
            & [Hr Hrp] & Hst).
      exists acc', st', added. unfold nonblank in *.
      rewrite filter_cons_False by (intros H; apply H; assumption).
      repeat split; try assumption.
      intros it Hit. destruct (Hst it Hit) as (raw' & t1 & t2 & Hin & Hnb & ->).
      exists raw', t1, t2. repeat split; [right|..]; assumption.
    + rewrite process_lines_row by assumption.
      destruct (process_row_ledger headers key i (trim raw) acc w st)
        as (acc1 & st1 & added1 & Hrun1 & Htr1 & Hs1 & Hi1 & Hc1 & Hp1 & He1
            & [Hr1 Hrp1] & Hst1).
      cbv zeta in Hs1, Hi1, Hst1. fold (complete headers raw) in Hs1, Hi1, Hst1.
      rewrite Hrun1.
      destruct (IH (S i) acc1 st1)
        as (acc' & st' & added & Hrun & Htr & Hs & Hi & Hc & Hp & He
            & [Hr Hrp] & Hst).
      exists acc', st', (added ++ added1). unfold nonblank in *.
      rewrite filter_cons_True by assumption.
      rewrite !count_app, stored_app, length_app.
      split; [assumption|]. split; [rewrite Htr, Htr1, app_assoc; reflexivity|].
      split.
      { destruct (complete headers raw) eqn:Hcomplete.
        - rewrite filter_cons_True by assumption. cbn [length]. lia.
        - rewrite filter_cons_False by congruence. lia. }
      split; [cbn [length]; destruct (complete headers raw); lia|].
      split; [lia|]. split; [lia|]. split; [lia|].
      split; [split; [lia|rewrite reports_app, Hrp, Hrp1; reflexivity]|].
      intros it Hit. apply in_app_or in Hit. destruct Hit as [Hit|Hit].
      * destruct (Hst it Hit) as (raw' & t1 & t2 & Hin & Hnb & ->).
        exists raw', t1, t2. repeat split; [right|..]; assumption.
      * destruct (Hst1 it Hit) as (Hvalid & t1 & t2 & ->).
        exists raw, t1, t2. repeat split; [left; reflexivity|assumption].
Qed.

(** A batch that could be read, whatever the store and the notifier
    answer: the loop's additions, then the report; the handler
    returns. *)
Lemma batch_ledger event context key csv w st :
  decodeURIComponent w (plus_to_space (object_key event)) = inr key ->
  s3_getObject w (bucket_name event) key = inr csv ->
  let lines := lines_of csv in
  let headers := headers_of lines in
  exists acc added after resp st',
    handler event context w st = (Returned resp, st')
    /\ trace st' = after ++ added ++ trace (at_loop_start event key csv st)
    /\ length (stored added)
       = length (filter (fun raw => complete headers raw = true)
                        (nonblank (tl lines)))
    /\ (count is_incomplete added + length (stored added)
        = length (nonblank (tl lines)))%nat
    /\ (count is_inserted added + count is_refused added
        = length (stored added))%nat
    /\ processedCount acc = Z.of_nat (count is_inserted added)
    /\ errorCount acc
       = Z.of_nat (count is_incomplete added + count is_refused added)
    /\ (count is_s3_read added = 0%nat /\ reports added = [])
    /\ (forall it, In it (stored added) ->
          exists raw t1 t2,
            In raw (tl lines) /\ complete headers raw = true
            /\ it = FromFile (enriched_record (decode_row headers (trim raw))
                                              key t1 t2))
    /\ stored after = []
    /\ count is_inserted after = 0%nat /\ count is_refused after = 0%nat
    /\ count is_incomplete after = 0%nat /\ count is_s3_read after = 0%nat
    /\ (forall r, In r (reports after) ->
          r = (processedCount acc, errorCount acc, total_of lines))
    /\ (statusCode resp = 200 \/ statusCode resp = 500).
Proof.
  intros Hkey Hcsv lines headers. rewrite (handler_read _ _ _ _ _ _ Hkey Hcsv).
  fold lines. fold headers.
  destruct (process_lines_ledger headers key w (tl lines) 1
              (mkCounters [] 0 0) (at_loop_start event key csv st))
    as (acc & st1 & added & Hrun & Htr & Hs & Hi & Hc & Hp & He & [Hr Hrp] & Hst).
  rewrite Hrun, finish_cases. cbn [processedCount errorCount] in Hp, He.
  exists acc, added.
  assert (Hshape : forall after resp st',
            trace st' = after ++ trace st1 ->
            stored after = [] ->
            count is_inserted after = 0%nat -> count is_refused after = 0%nat ->
            count is_incomplete after = 0%nat -> count is_s3_read after = 0%nat ->
            (forall r, In r (reports after) ->
               r = (processedCount acc, errorCount acc, total_of lines)) ->
            statusCode resp = 200 \/ statusCode resp = 500 ->
            exists after0 resp0 st0,
              (Returned resp, st') = (Returned resp0, st0)
              /\ trace st0 = after0 ++ added ++ trace (at_loop_start event key csv st)
              /\ length (stored added)
                 = length (filter (fun raw => complete headers raw = true)
                                  (nonblank (tl lines)))
              /\ (count is_incomplete added + length (stored added)
                  = length (nonblank (tl lines)))%nat
              /\ (count is_inserted added + count is_refused added
                  = length (stored added))%nat
              /\ processedCount acc = Z.of_nat (count is_inserted added)
              /\ errorCount acc
                 = Z.of_nat (count is_incomplete added + count is_refused added)
              /\ (count is_s3_read added = 0%nat /\ reports added = [])
              /\ (forall it, In it (stored added) ->
                    exists raw t1 t2,
                      In raw (tl lines) /\ complete headers raw = true
                      /\ it = FromFile (enriched_record
                                          (decode_row headers (trim raw)) key t1 t2))
              /\ stored after0 = []
              /\ count is_inserted after0 = 0%nat /\ count is_refused after0 = 0%nat
              /\ count is_incomplete after0 = 0%nat /\ count is_s3_read after0 = 0%nat
              /\ (forall r, In r (reports after0) ->
                    r = (processedCount acc, errorCount acc, total_of lines))
              /\ (statusCode resp0 = 200 \/ statusCode resp0 = 500)).
  { intros after resp st' Htr' H1 H2 H3 H4 H5 H6 H7.
    exists after, resp, st'. rewrite Htr', Htr.
    repeat split; try assumption; try lia. }
  destruct (topic w) as [arn|] eqn:Htopic.
  - cbv zeta.
    destruct (sns_publish w (publishes st1) _) as [e|message_id].
    + rewrite on_fatal_cases, Htopic. cbv zeta.
      cbn [publishes clock_reads after_publish ticked].
      destruct (sns_publish w (S (publishes st1)) _) as [e'|message_id'].
      * refine (Hshape [_; _; _; _; _; _; _; _] _ _ _ _ _ _ _ _ _ _); try reflexivity;
          try (right; reflexivity).
        intros r [<-|[]]. reflexivity.
      * refine (Hshape [_; _; _; _; _; _; _] _ _ _ _ _ _ _ _ _ _); try reflexivity;
          try (right; reflexivity).
        intros r [<-|[]]. reflexivity.
    + refine (Hshape [_; _; _; _] _ _ _ _ _ _ _ _ _ _); try reflexivity; try (left; reflexivity).
      intros r [<-|[<-|[]]]; reflexivity.
  - refine (Hshape [_] _ _ _ _ _ _ _ _ _ _); try reflexivity; try (left; reflexivity).
    intros r [<-|[]]. reflexivity.
Qed.

End BatchLedger.

(** ** The batch handler, batch by batch *)

Section BatchRuns.

Import DataProcessor Batch.

(** The store is called exactly once for each non-blank data line that
    has a usable [id] and a usable [nome], and for no other line. *)
Theorem store_called_once_per_complete_row w event context key csv :
  decodeURIComponent w (plus_to_space (object_key event)) = inr key ->
  s3_getObject w (bucket_name event) key = inr csv ->
  let run := handler event context w initial in
  length (stored (trace (snd run)))
  = length (filter (fun raw => complete (headers_of (lines_of csv)) raw = true)
                   (nonblank (tl (lines_of csv)))).
Proof.
  intros Hkey Hcsv run.
  destruct (batch_ledger event context key csv w initial Hkey Hcsv)
    as (acc & added & after & resp & st' & Hrun & Htr & Hs & _ & _ & _ & _ & _
        & _ & Hafter & _).
  subst run. rewrite Hrun. cbn [snd]. rewrite Htr, !stored_app, Hafter.
  cbn [app]. rewrite length_app, Hs. cbn. lia.
Qed.

Lemma store_called_once_per_complete_row_witness :
  length (stored (trace (snd (handler Sample.upload Sample.context
                                (Sample.world Sample.csv_mixed Sample.never false)
                                initial))))
  = 2%nat.
Proof.
  rewrite (store_called_once_per_complete_row
             (Sample.world Sample.csv_mixed Sample.never false)
             Sample.upload Sample.context (lit "input/produtos.csv")
             Sample.csv_mixed eq_refl eq_refl).
  vm_compute. reflexivity.
Defined.



(** No record reaches the store without an identity: every record the
    batch handler stores has a non-empty [id], a usable [nome] and a
    usable [categoria], and carries the key of its file and the version
    of the processor. *)
Theorem stored_records_have_identity w event context key csv it :
  decodeURIComponent w (plus_to_space (object_key event)) = inr key ->
  s3_getObject w (bucket_name event) key = inr csv ->
  In it (stored (trace (snd (handler event context w initial)))) ->
  exists r,
    it = FromFile r
    /\ Enriched.id r <> []
    /\ truthy (Enriched.nome r) = true
    /\ truthy (Enriched.categoria r) = true
    /\ Enriched.source_file r = key
    /\ Enriched.processor_version r = lit "1.0.0".
Proof.
  intros Hkey Hcsv Hin.
  destruct (batch_ledger event context key csv w initial Hkey Hcsv)
    as (acc & added & after & resp & st' & Hrun & Htr & _ & _ & _ & _ & _ & _
        & Hst & Hafter & _).
  rewrite Hrun in Hin. cbn [snd] in Hin. rewrite Htr in Hin.
  rewrite !stored_app, Hafter in Hin. cbn in Hin. rewrite app_nil_r in Hin.
  destruct (Hst it Hin) as (raw & t1 & t2 & _ & Hcomplete & ->).
  eexists. split; [reflexivity|].
  unfold complete in Hcomplete. apply andb_prop in Hcomplete.
  destruct Hcomplete as [Hid Hnome].
  cbn [enriched_record Enriched.id Enriched.nome Enriched.categoria
       Enriched.source_file Enriched.processor_version].
  split.
  { unfold text_of, field in *.
    destruct (decode_row _ _ !! lit "id") as [[|c s]|]; cbn in *; congruence. }
  split; [assumption|].
  split; [|split; reflexivity].
  unfold or_else. destruct (truthy (field _ (lit "categoria"))) eqn:Hcat;
    [assumption|reflexivity].
Qed.

Lemma stored_records_have_identity_witness :
  exists r,
    FromFile
      (enriched_record
         (decode_row (headers_of (lines_of Sample.csv_one_row))
                     (lit "1,Caneta,Papelaria,2.50,100"))
         (lit "input/produtos.csv") 1700000000000 1700000000001)
    = FromFile r
    /\ Enriched.id r <> []
    /\ truthy (Enriched.nome r) = true
    /\ truthy (Enriched.categoria r) = true
    /\ Enriched.source_file r = lit "input/produtos.csv"
    /\ Enriched.processor_version r = lit "1.0.0".
Proof.
  apply (stored_records_have_identity
           (Sample.world Sample.csv_one_row Sample.never false)
           Sample.upload Sample.context (lit "input/produtos.csv")
           Sample.csv_one_row _ eq_refl eq_refl).
  vm_compute. left. reflexivity.
Defined.

(** A file with nothing after its header (an empty file included)
    attempts no row, calls the store for none and reports zero
    processed, zero failed, zero in total. *)
Theorem header_only_batch_is_empty w event context key csv :
  decodeURIComponent w (plus_to_space (object_key event)) = inr key ->
  s3_getObject w (bucket_name event) key = inr csv ->
  tl (lines_of csv) = [] ->
  let tr := trace (snd (handler event context w initial)) in
  stored tr = []
  /\ rows_attempted tr = 0%nat
  /\ forall r, In r (reports tr) -> r = (0, 0, 0).
Proof.
  intros Hkey Hcsv Hempty tr.
  destruct (batch_ledger event context key csv w initial Hkey Hcsv)
    as (acc & added & after & resp & st' & Hrun & Htr & Hs & Hi & Hc & Hp & He
        & [_ Hradded] & _ & Hafter & _ & _ & _ & _ & Hrep & _).
  pose proof (every_row_count := total_of_lines csv).
  rewrite Hempty in Hs, Hi, every_row_count. cbn in Hs, Hi, every_row_count.
  assert (Hins : count is_inserted added = 0%nat) by lia.
  assert (Href : count is_refused added = 0%nat) by lia.
  assert (Hinc : count is_incomplete added = 0%nat) by lia.
  rewrite Hins in Hp. rewrite Hinc, Href in He. cbn in Hp, He.
  destruct (handler_outcome event context key csv w Hkey Hcsv)
    as (acc0 & added0 & resp0 & after0 & st0 & Hrun0 & Htr0 & Hn0 & _ & _ & _
        & Hn0' & _).
  rewrite Hempty in Hn0. cbn in Hn0.
  subst tr. split; [|split].
  - rewrite Hrun. cbn [snd]. rewrite Htr, !stored_app, Hafter.
    destruct (stored added); [reflexivity|discriminate].
  - rewrite Hrun0. cbn [snd]. rewrite Htr0, !rows_attempted_app, Hn0, Hn0'.
    reflexivity.
  - intros r Hin. rewrite Hrun in Hin. cbn [snd] in Hin. rewrite Htr in Hin.
    rewrite !reports_app, Hradded in Hin. cbn in Hin. rewrite app_nil_r in Hin.
    apply Hrep in Hin. rewrite Hin, Hp, He, every_row_count. reflexivity.
Qed.

Lemma header_only_batch_is_empty_witness :
  stored (trace (snd (handler Sample.upload Sample.context
                        (Sample.world Sample.header_line Sample.never false)
                        initial)))
  = [].
Proof.
  refine (proj1 (header_only_batch_is_empty
                   (Sample.world Sample.header_line Sample.never false)
                   Sample.upload Sample.context (lit "input/produtos.csv")
                   Sample.header_line eq_refl eq_refl _)).
  vm_compute. reflexivity.
Defined.

(** The [catch] of the handler always ends in the 500 result that
    echoes the message of what was thrown, also when the failure
    notification is itself refused; it calls the notifier at most once
    and the store never. *)
Theorem failure_notification_is_best_effort error w st :
  let run := on_fatal error w st in
  fst run = Returned (mkResponse 500
                        (Failure (lit "Erro no processamento") (message error)))
  /\ stored (trace (snd run)) = stored (trace st)
  /\ (publishes (snd run) <= S (publishes st))%nat
  /\ (length (published (trace (snd run)))
      <= S (length (published (trace st))))%nat.
Proof.
  intros run. subst run. rewrite on_fatal_cases. cbn [fst snd].
  split; [reflexivity|].
  destruct (topic w) as [arn|]; cbv zeta.
  - destruct (sns_publish w (publishes st) _); cbn;
      (split; [reflexivity|split; lia]).
  - cbn. split; [reflexivity|]. split; lia.
Qed.

(** Whatever the trigger, the world and the state, the batch handler
    returns a result, with status 200 or 500; nothing it calls can make
    it throw. *)
Theorem batch_handler_always_answers w st event context :
  exists resp st',
    handler event context w st = (Returned resp, st')
    /\ (statusCode resp = 200 \/ statusCode resp = 500).
Proof.
  destruct (decodeURIComponent w (plus_to_space (object_key event)))
    as [e|key] eqn:Hkey.
  { unfold handler, bind, try_catch, ask, console, emit, of_sum, throw.
    cbn -[lit on_fatal plus_to_space]. rewrite Hkey. rewrite on_fatal_cases.
    do 2 eexists. split; [reflexivity|]. right. reflexivity. }
  destruct (s3_getObject w (bucket_name event) key) as [e|csv] eqn:Hcsv.
  { unfold handler, bind, try_catch, ask, console, emit, of_sum, throw,
      S3.getObject, S3.getObject_call, bind, try_catch, ask, console, emit,
      of_sum, throw.
    cbn -[lit on_fatal plus_to_space]. rewrite Hkey.
    cbn -[lit on_fatal plus_to_space]. rewrite Hcsv.
    cbn -[lit on_fatal plus_to_space]. rewrite on_fatal_cases.
    do 2 eexists. split; [reflexivity|]. right. reflexivity. }
  destruct (batch_ledger event context key csv w st Hkey Hcsv)
    as (acc & added & after & resp & st' & Hrun & _ & _ & _ & _ & _ & _ & _
        & _ & _ & _ & _ & _ & _ & _ & Hstatus).
  exists resp, st'. split; assumption.
Qed.

End BatchRuns.

(** ** Failures before the loop *)

Section BatchFailures.

Import DataProcessor Batch.

(** When the object cannot be read, the result is the 500 response with
    the message of the read error; no row is attempted, the store is not
    called, no completion report is made, and, when a topic is set, the
    one notification handed to the notifier is the failure one. *)
Theorem unreadable_object_is_failure w st event context key e :
  decodeURIComponent w (plus_to_space (object_key event)) = inr key ->
  s3_getObject w (bucket_name event) key = inl e ->
  let run := handler event context w st in
  fst run = Returned (mkResponse 500
                        (Failure (lit "Erro no processamento") (message e)))
  /\ stored (trace (snd run)) = stored (trace st)
  /\ rows_attempted (trace (snd run)) = rows_attempted (trace st)
  /\ reports (trace (snd run)) = reports (trace st)
  /\ (forall arn, topic w = Some arn ->
        published (trace (snd run))
        = ProcessingFailed (message e) (ISO (clock w (clock_reads st)))
          :: published (trace st))
  /\ (topic w = None -> published (trace (snd run)) = published (trace st)).
Proof.
  intros Hkey Hcsv run. subst run.
  unfold handler, bind, try_catch, ask, console, emit, of_sum, throw,
    S3.getObject, S3.getObject_call, bind, try_catch, ask, console, emit,
    of_sum, throw.
  cbn -[lit on_fatal plus_to_space]. rewrite Hkey.
  cbn -[lit on_fatal plus_to_space]. rewrite Hcsv.
  cbn -[lit on_fatal plus_to_space]. rewrite on_fatal_cases. cbn [fst snd].
  split; [reflexivity|].
  destruct (topic w) as [arn|]; cbv zeta.
  - cbn [publishes clock_reads].
    destruct (sns_publish w (publishes st) _);
      (rewrite ?rows_attempted_cons; cbn;
       repeat split; try reflexivity; try discriminate;
       intros arn' [= <-]; reflexivity).
  - rewrite ?rows_attempted_cons. cbn.
    repeat split; try reflexivity; discriminate.
Qed.

Lemma unreadable_object_is_failure_witness :
  Batch.status
    (handler Sample.upload Sample.context
       (mkWorld None (fun _ _ => inl (Sample.failure "no such key"))
          (fun _ _ => None) (fun _ _ => inr []) (fun _ => 0) (fun _ => [])
          (fun _ => inr Null) (fun s => inr s))
       initial)
  = Some 500.
Proof.
  pose proof (unreadable_object_is_failure
                (mkWorld None (fun _ _ => inl (Sample.failure "no such key"))
                   (fun _ _ => None) (fun _ _ => inr []) (fun _ => 0)
                   (fun _ => []) (fun _ => inr Null) (fun s => inr s))
                initial Sample.upload Sample.context
                (lit "input/produtos.csv") (Sample.failure "no such key")
                eq_refl eq_refl) as [H _].
  unfold Batch.status. rewrite H. reflexivity.
Defined.

(** When the object key cannot be decoded, the result is the 500
    response with the message of the decoding error, and S3 is never
    read. *)
Theorem undecodable_key_is_failure w st event context e :
  decodeURIComponent w (plus_to_space (object_key event)) = inl e ->
  let run := handler event context w st in
  fst run = Returned (mkResponse 500
                        (Failure (lit "Erro no processamento") (message e)))
  /\ count is_s3_read (trace (snd run)) = count is_s3_read (trace st)
  /\ stored (trace (snd run)) = stored (trace st).
Proof.
  intros Hkey run. subst run.
  unfold handler, bind, try_catch, ask, console, emit, of_sum, throw.
  cbn -[lit on_fatal plus_to_space]. rewrite Hkey. rewrite on_fatal_cases.
  cbn [fst snd]. split; [reflexivity|].
  destruct (topic w) as [arn|]; cbv zeta.
  - cbn [publishes clock_reads].
    destruct (sns_publish w (publishes st) _);
      rewrite ?count_cons; cbn; split; reflexivity.
  - rewrite ?count_cons. cbn. split; reflexivity.
Qed.

Lemma undecodable_key_is_failure_witness :
  Batch.status
    (handler Sample.upload Sample.context
       (mkWorld None (fun _ _ => inr [])
          (fun _ _ => None) (fun _ _ => inr []) (fun _ => 0) (fun _ => [])
          (fun _ => inr Null)
          (fun _ => inl (mkError URIError (lit "URI malformed"))))
       initial)
  = Some 500.
Proof.
  pose proof (undecodable_key_is_failure
                (mkWorld None (fun _ _ => inr [])
                   (fun _ _ => None) (fun _ _ => inr []) (fun _ => 0)
                   (fun _ => []) (fun _ => inr Null)
                   (fun _ => inl (mkError URIError (lit "URI malformed"))))
                initial Sample.upload Sample.context
                (mkError URIError (lit "URI malformed")) eq_refl) as [H _].
  unfold Batch.status. rewrite H. reflexivity.
Defined.

End BatchFailures.

(** ** The CSV decoder *)

Section Decoder.

Import DataProcessor.

Lemma assign_columns_other headers name :
  ~ In name headers ->
  forall index values record,
    assign_columns headers index values record !! name = record !! name.
Proof.
  induction headers as [|header rest IH]; intros Hout index values record;
    [reflexivity|].
  cbn [assign_columns]. rewrite IH by (intros H; apply Hout; right; assumption).
  assert (Hne : header <> name) by (intros ->; apply Hout; left; reflexivity).
  destruct (values !! index).
  - apply lookup_insert_ne. assumption.
  - apply lookup_delete_ne. assumption.
Qed.

Lemma assign_columns_last headers :
  forall i name index values record,
    headers !! i = Some name ->
    (forall j, (i < j)%nat -> headers !! j <> Some name) ->
    assign_columns headers index values record !! name
    = values !! (index + i)%nat.
Proof.
  induction headers as [|header rest IH]; intros i name index values record Hi Hlast;
    [discriminate|].
  cbn [assign_columns]. destruct i as [|i].
  - cbn in Hi. injection Hi as ->.
    rewrite assign_columns_other.
    + rewrite Nat.add_0_r. destruct (values !! index) eqn:Hv.
      * apply lookup_insert_eq.
      * apply lookup_delete_eq.
    + intros Hin. apply list_elem_of_In, list_elem_of_lookup in Hin.
      destruct Hin as [j Hj]. apply (Hlast (S j)); [lia|exact Hj].
  - cbn in Hi. rewrite (IH i name (S index) values _ Hi).
    + f_equal. lia.
    + intros j Hj. apply (Hlast (S j)). lia.
Qed.

(** A field is read by position: the value of the column named [name]
    is the trimmed piece at the position of the last header of that
    name, and [undefined] when the line has fewer pieces. *)
Theorem field_read_by_position headers line i name :
  headers !! i = Some name ->
  (forall j, (i < j)%nat -> headers !! j <> Some name) ->
  field (decode_row headers line) name
  = match split comma line !! i with
    | Some piece => Str (trim piece)
    | None => Undefined
    end.
Proof.
  intros Hi Hlast. unfold field, decode_row.
  rewrite (assign_columns_last headers i name 0 _ _ Hi Hlast).
  cbn [Nat.add]. rewrite list_lookup_fmap.
  destruct (split comma line !! i); reflexivity.
Qed.

Lemma field_read_by_position_witness :
  field (decode_row [lit "id"; lit "nome"; lit "preco"] (lit "7, Caneta ")) (lit "preco")
  = Undefined.
Proof.
  rewrite (field_read_by_position [lit "id"; lit "nome"; lit "preco"]
             (lit "7, Caneta ") 2 (lit "preco")).
  - reflexivity.
  - reflexivity.
  - intros [|[|[|j]]] Hj; try lia; discriminate.
Defined.

(** A name that is not among the headers reads as [undefined], whatever
    the line holds. *)
Theorem unnamed_column_is_undefined headers line name :
  ~ In name headers ->
  field (decode_row headers line) name = Undefined.
Proof.
  intros Hout. unfold field, decode_row.
  rewrite assign_columns_other by assumption. reflexivity.
Qed.

Lemma unnamed_column_is_undefined_witness :
  field (decode_row [lit "id"; lit "nome"] (lit "7,Caneta,9.90")) (lit "preco")
  = Undefined.
Proof.
  apply (unnamed_column_is_undefined [lit "id"; lit "nome"] (lit "7,Caneta,9.90")
           (lit "preco")).
  intros [H|[H|[]]]; discriminate.
Defined.

Lemma length_split sep s :
  length (split sep s) = S (length (filter (fun c => c = sep) s)).
Proof.
  induction s as [|c s IH]; [reflexivity|].
  cbn [split]. destruct (N.eqb_spec c sep) as [->|Hne].
  - rewrite (filter_cons_True (fun c => c = sep)) by reflexivity.
    cbn [length]. rewrite IH. reflexivity.
  - rewrite (filter_cons_False (fun c => c = sep)) by assumption.
    destruct (split_cons sep s) as (first & rest & Hsplit).
    rewrite Hsplit in *. cbn [length] in *. assumption.
Qed.

(** [total_records] is the number of line breaks left in the content
    once it is trimmed; it is never negative. *)
Theorem total_counts_line_breaks csv :
  total_of (lines_of csv)
  = Z.of_nat (length (filter (fun c => c = newline) (trim csv)))
  /\ 0 <= total_of (lines_of csv).
Proof.
  unfold total_of, lines_of. rewrite length_split. split; lia.
Qed.

End Decoder.

(** ** utils/dynamodb.js: the update expression *)

Section UpdateExpression.

Import Tools.

Lemma uint_digits_inj u : forall u', uint_digits u = uint_digits u' -> u = u'.
Proof.
  induction u as [|u IH|u IH|u IH|u IH|u IH|u IH|u IH|u IH|u IH|u IH];
    intros [|u'|u'|u'|u'|u'|u'|u'|u'|u'|u'] H; cbn in H;
    try discriminate; try reflexivity;
    injection H as H; f_equal; apply IH; assumption.
Qed.

Lemma decimal_digits_inj m n : decimal_digits m = decimal_digits n -> m = n.
Proof.
  unfold decimal_digits. intros H.
  apply DecimalN.Unsigned.to_uint_inj, uint_digits_inj. assumption.
Qed.

Lemma placeholder_inj i j : placeholder i = placeholder j -> i = j.
Proof.
  unfold placeholder. intros H. apply app_inv_head in H.
  apply decimal_digits_inj in H. lia.
Qed.

Lemma valuePlaceholder_inj i j : valuePlaceholder i = valuePlaceholder j -> i = j.
Proof.
  unfold valuePlaceholder. intros H. apply app_inv_head in H.
  apply decimal_digits_inj in H. lia.
Qed.

(** The assignment of index [i]. *)
Lemma collect_parts updates :
  forall index acc,
    updateExpressionParts (collect updates index acc)
    = updateExpressionParts acc
      ++ map (fun i => placeholder i ++ lit " = " ++ valuePlaceholder i)
             (seq index (length updates)).
Proof.
  induction updates as [|[key value] rest IH]; intros index acc.
  - cbn. rewrite app_nil_r. reflexivity.
  - cbn [collect length seq map]. rewrite IH. cbn [updateExpressionParts].
    rewrite <- app_assoc. reflexivity.
Qed.

Lemma collect_keeps updates :
  forall index acc j,
    (j < index)%nat ->
    expressionAttributeNames (collect updates index acc) !! placeholder j
    = expressionAttributeNames acc !! placeholder j
    /\ expressionAttributeValues (collect updates index acc) !! valuePlaceholder j
       = expressionAttributeValues acc !! valuePlaceholder j.
Proof.
  induction updates as [|[key value] rest IH]; intros index acc j Hj;
    [split; reflexivity|].
  cbn [collect]. destruct (IH (S index) (mkExpression
      (updateExpressionParts acc
       ++ [placeholder index ++ lit " = " ++ valuePlaceholder index])
      (<[placeholder index := key]> (expressionAttributeNames acc))
      (<[valuePlaceholder index := value]> (expressionAttributeValues acc)))
      j ltac:(lia)) as [Hn Hv].
  rewrite Hn, Hv. cbn [expressionAttributeNames expressionAttributeValues].
  split; apply lookup_insert_ne; intros H;
    [apply placeholder_inj in H|apply valuePlaceholder_inj in H]; lia.
Qed.

Lemma collect_resolves updates :
  forall index acc i key value,
    updates !! i = Some (key, value) ->
    expressionAttributeNames (collect updates index acc)
      !! placeholder (index + i) = Some key
    /\ expressionAttributeValues (collect updates index acc)
         !! valuePlaceholder (index + i) = Some value.
Proof.
  induction updates as [|[key0 value0] rest IH]; intros index acc i key value Hi;
    [discriminate|].
  cbn [collect]. destruct i as [|i].
  - cbn in Hi. injection Hi as -> ->. rewrite Nat.add_0_r.
    destruct (collect_keeps rest (S index) (mkExpression
      (updateExpressionParts acc
       ++ [placeholder index ++ lit " = " ++ valuePlaceholder index])
      (<[placeholder index := key]> (expressionAttributeNames acc))
      (<[valuePlaceholder index := value]> (expressionAttributeValues acc)))
      index ltac:(lia)) as [Hn Hv].
    rewrite Hn, Hv. cbn [expressionAttributeNames expressionAttributeValues].
    split; apply lookup_insert_eq.
  - cbn in Hi. replace (index + S i)%nat with (S index + i)%nat by lia.
    apply IH. assumption.
Qed.

(** Every key of [updates] can be found back from its placeholder, and
    every value from its own: the [i]-th key under [#attr i], the [i]-th
    value under [:val i]; no placeholder is written twice. *)
Theorem placeholders_resolve TABLE_NAME id timestamp updates i key value :
  updates !! i = Some (key, value) ->
  let params := update_request TABLE_NAME id timestamp updates in
  ExpressionAttributeNames params !! placeholder i = Some key
  /\ ExpressionAttributeValues params !! valuePlaceholder i = Some value.
Proof.
  intros Hi params. subst params. unfold update_request.
  cbn [ExpressionAttributeNames ExpressionAttributeValues].
  apply (collect_resolves updates 0 _ i key value Hi).
Qed.

Lemma placeholders_resolve_witness :
  ExpressionAttributeNames
    (update_request None (lit "7") 1700000000000
       [(lit "nome", Str (lit "Caneta")); (lit "preco", Num (Finite false 25 (-1)))])
    !! placeholder 1
  = Some (lit "preco").
Proof.
  refine (proj1 (placeholders_resolve None (lit "7") 1700000000000
                   [(lit "nome", Str (lit "Caneta"));
                    (lit "preco", Num (Finite false 25 (-1)))]
                   1 (lit "preco") (Num (Finite false 25 (-1))) _)).
  reflexivity.
Defined.

(** The text of the expression is made of placeholders only: it is
    fixed by the number of keys, whatever the keys and the values are,
    and with no key at all it is the bare [SET ]. *)
Theorem expression_holds_placeholders_only TABLE_NAME id timestamp updates :
  UpdateExpression (update_request TABLE_NAME id timestamp updates)
  = lit "SET "
    ++ join (lit ", ")
         (map (fun i => placeholder i ++ lit " = " ++ valuePlaceholder i)
              (seq 0 (length updates)))
  /\ UpdateExpression (update_request TABLE_NAME id timestamp []) = lit "SET ".
Proof.
  unfold update_request. cbn [UpdateExpression]. rewrite collect_parts.
  cbn [updateExpressionParts app]. split; reflexivity.
Qed.

(** ** utils/s3.js: [bucketExists] *)

(** [bucketExists] answers [false] for the error code [NotFound] and
    for nothing else: any other error is thrown on, never turned into
    an answer. *)
Theorem bucketExists_hides_only_NotFound headBucket bucket :
  (bucketExists headBucket bucket = inr true <-> headBucket bucket = None)
  /\ (bucketExists headBucket bucket = inr false
      <-> exists e, headBucket bucket = Some e /\ code e = Str (lit "NotFound"))
  /\ (forall e, bucketExists headBucket bucket = inl e
      <-> headBucket bucket = Some e /\ code e <> Str (lit "NotFound")).
Proof.
  unfold bucketExists.
  destruct (headBucket bucket) as [e0|] eqn:Hhead.
  - destruct (is_string (code e0) (lit "NotFound")) eqn:Hcode.
    + apply is_string_true in Hcode.
      split; [split; discriminate|].
      split; [split; [eauto|reflexivity]|].
      intros e. split; [discriminate|]. intros [[= <-] Hne]. contradiction.
    + assert (Hne : code e0 <> Str (lit "NotFound")).
      { intros H. rewrite H in Hcode. vm_compute in Hcode. discriminate. }
      split; [split; discriminate|].
      split; [split; [discriminate|intros (e & [= <-] & H); contradiction]|].
      intros e. split; [intros [= <-]; split; [reflexivity|assumption]|].
      intros [[= <-] _]. reflexivity.
  - split; [split; reflexivity|].
    split; [split; [discriminate|intros (e & H & _); discriminate]|].
    intros e. split; [discriminate|]. intros [H _]. discriminate.
Qed.

End UpdateExpression.

(** ** The helpers, and what the answer of the API says *)

Section Answers.

Import CreateRecord Api.

(** [publishMessage] hands its attributes on, in order and unchanged,
    in one call of the notifier, and returns only if that call is
    accepted: a rejection is logged once and thrown again as it is. *)
Theorem publish_rejection_is_thrown_on arn msg subject
    (attributes : list (jsstring * jsstring)) w st :
  SNS.publishMessage arn msg subject
    (map (fun kv => (fst kv, Str (snd kv))) attributes) w st
  = match sns_publish w (publishes st) (mkPublish arn msg subject attributes) with
    | inr message_id =>
        (Returned tt,
         mkSt (Console (SnsPublished message_id)
               :: SnsPublish (mkPublish arn msg subject attributes)
               :: Console (SnsPublishing arn) :: trace st)
              (puts st) (S (publishes st)) (clock_reads st) (uuids st))
    | inl e =>
        (Thrown e,
         mkSt (Console (SnsPublishError e)
               :: SnsPublish (mkPublish arn msg subject attributes)
               :: Console (SnsPublishing arn) :: trace st)
              (puts st) (S (publishes st)) (clock_reads st) (uuids st))
    end.
Proof.
  rewrite (publishMessage_cases arn msg subject _ attributes).
  - cbv zeta. destruct (sns_publish w (publishes st) _); reflexivity.
  - induction attributes as [|[k v] rest IH]; constructor.
    + split; reflexivity.
    + assumption.
Qed.

(** An attribute that cannot be turned into a string makes
    [publishMessage] throw a [TypeError] before the notifier is called:
    nothing is published, nothing is logged. *)
Theorem unconvertible_attribute_stops_publish arn msg subject attributes w st :
  Exists (fun kv => ToString (snd kv) = None) attributes ->
  exists e,
    class e = TypeError
    /\ SNS.publishMessage arn msg subject attributes w st = (Thrown e, st).
Proof.
  intros Hbad. exists type_error. split; [reflexivity|].
  unfold SNS.publishMessage.
  assert (Hattrs : for_each (fun kv => (s <- to_string (snd kv) ;; ret (fst kv, s))%js)
                     attributes w st = (Thrown type_error, st)).
  { induction attributes as [|[k v] rest IH]; [inversion Hbad|].
    cbn [for_each fst snd]. unfold bind, to_string, ret, throw in *.
    destruct (ToString v) as [text|] eqn:Hv; [|reflexivity].
    rewrite IH; [reflexivity|].
    inversion Hbad as [? ? Hhead|? ? Htail]; subst; [|assumption].
    cbn in Hhead. congruence. }
  unfold bind at 1. rewrite Hattrs. reflexivity.
Qed.

Lemma unconvertible_attribute_stops_publish_witness :
  exists e,
    class e = TypeError
    /\ SNS.publishMessage (lit "arn") (ProcessingFailed [] (ISO 0)) (lit "s")
         [(lit "record_id", Obj [(lit "toString", Null)])]
         (Sample.world [] Sample.never false) initial
       = (Thrown e, initial).
Proof.
  apply (unconvertible_attribute_stops_publish (lit "arn")
           (ProcessingFailed [] (ISO 0)) (lit "s")
           [(lit "record_id", Obj [(lit "toString", Null)])]
           (Sample.world [] Sample.never false) initial).
  constructor. reflexivity.
Defined.

(** A 201 answer is only given after the store was called, once in the
    call, for an item it accepted.  (Nothing is said of the text of the
    answer: the handler serialises it with [JSON.stringify], which is
    outside this development.) *)
Theorem created_answer_means_stored w st event context resp :
  fst (handler event context w st) = Returned resp ->
  statusCode resp = 201 ->
  exists item,
    stored (trace (snd (handler event context w st)))
    = FromApi item :: stored (trace st)
    /\ dynamodb_put w (puts st) (FromApi item) = None.
Proof.
  intros Hrun Hstatus.
  destruct (is_string (httpMethod event) (lit "OPTIONS")) eqn:Hoptions.
  { unfold handler in Hrun. rewrite Hoptions in Hrun. cbn in Hrun.
    injection Hrun as <-. discriminate. }
  destruct (is_string (httpMethod event) (lit "POST")) eqn:Hpost.
  2:{ rewrite handler_other_method in Hrun by assumption.
      injection Hrun as <-. discriminate. }
  apply is_string_true in Hpost.
  destruct (parse_body_cases w (logged (ApiEvent event) (logged ApiStarted st)) event)
    as [Hnone|(v & Hv & _)].
  { rewrite (handler_invalid_json _ _ _ _ Hpost Hnone) in Hrun.
    injection Hrun as <-. discriminate. }
  rewrite (handler_post _ _ _ _ _ Hpost Hv) in *.
  destruct v as [| | | | | |props];
    try (match type of Hrun with
         | context [create _ _ ?v _ ?st0] =>
             destruct (create_without_properties event context v w st0
                         ltac:(intros; discriminate)) as (o & Ho & Hthrown & Hreturned)
         end;
         rewrite Ho in Hrun; destruct o as [r|e]; cbn in Hrun;
         [ first [ rewrite (Hreturned ltac:(discriminate) ltac:(discriminate)) in *
                 | destruct (Hthrown ltac:(tauto)) as (e' & He' & _); discriminate ]
         | ];
         injection Hrun as <-; discriminate).
  rewrite create_cases in *. cbv zeta in *.
  destruct (negb _); [injection Hrun as <-; discriminate|].
  destruct (parseFloat _); [|injection Hrun as <-; discriminate].
  destruct (parseInt _); [|injection Hrun as <-; discriminate].
  cbn [puts logged publishes uuids clock_reads] in *.
  destruct (dynamodb_put w _ _) eqn:Hput; [injection Hrun as <-; discriminate|].
  destruct (ToString _); [|injection Hrun as <-; discriminate].
  destruct (topic w).
  - cbv zeta in *. destruct (sns_publish w _ _);
      [injection Hrun as <-; discriminate|].
    injection Hrun as <-. eexists. split; [reflexivity|exact Hput].
  - injection Hrun as <-. eexists. split; [reflexivity|exact Hput].
Qed.

Lemma created_answer_means_stored_witness :
  exists item,
    stored (trace (snd (handler (Sample.post Sample.widget) Sample.context
                          (Sample.world [] Sample.never false) initial)))
    = FromApi item :: stored (trace initial).
Proof.
  destruct (created_answer_means_stored
              (Sample.world [] Sample.never false) initial
              (Sample.post Sample.widget) Sample.context _ eq_refl eq_refl)
    as (item & Hstored & _).
  exists item. exact Hstored.
Defined.

(** A usable [id] that cannot be printed (an object that overrides
    [toString]) is handed to the store as it is; when the store accepts
    it, the line [putItem] logs next throws, so the answer is the 500
    response and nothing is announced, the item staying stored. *)
Theorem unprintable_id_is_stored_then_500 w st event context props p q :
  httpMethod event = Str (lit "POST") ->
  interpreted w event (Obj props) ->
  truthy (get_opt (Obj props) (lit "nome")) = true ->
  truthy (get_opt (Obj props) (lit "id")) = true ->
  ToString (get_opt (Obj props) (lit "id")) = None ->
  parseFloat (get_opt (Obj props) (lit "preco")) = Some p ->
  parseInt (get_opt (Obj props) (lit "estoque")) = Some q ->
  let item := new_item event context (Obj props) (get_opt (Obj props) (lit "id"))
                (num_or_zero p) (num_or_zero q)
                (clock w (clock_reads st)) (clock w (S (clock_reads st))) in
  dynamodb_put w (puts st) (FromApi item) = None ->
  let run := handler event context w st in
  status run = Some 500
  /\ stored (trace (snd run)) = FromApi item :: stored (trace st)
  /\ published (trace (snd run)) = published (trace st).
Proof.
  intros Hpost Hbody Hnome Hid Htext Hp Hq item Hput run. subst run.
  unfold status.
  rewrite (handler_post _ _ _ _ _ Hpost Hbody), create_cases. cbv zeta.
  rewrite Hnome, Hid, Hp, Hq. cbn [negb logged puts uuids clock_reads publishes].
  fold item. rewrite Hput, Htext. repeat split; reflexivity.
Qed.

Lemma unprintable_id_is_stored_then_500_witness :
  status (handler
            (Sample.post (Obj [(lit "nome", Str (lit "Widget"));
                               (lit "id", Obj [(lit "toString", Null)])]))
            Sample.context (Sample.world [] Sample.never false) initial)
  = Some 500.
Proof.
  refine (proj1 (unprintable_id_is_stored_then_500
                   (Sample.world [] Sample.never false) initial
                   (Sample.post (Obj [(lit "nome", Str (lit "Widget"));
                                      (lit "id", Obj [(lit "toString", Null)])]))
                   Sample.context
                   [(lit "nome", Str (lit "Widget"));
                    (lit "id", Obj [(lit "toString", Null)])]
                   NaN NaN eq_refl eq_refl eq_refl eq_refl eq_refl eq_refl eq_refl
                   eq_refl)).
Defined.

End Answers.
